(** * autopdf: title and outline inference over positioned text fragments

    A shallow embedding of the two extractors of the repository,
    [EnhancedPDFOutlineExtractor] (Enhanced_pdf_extractor.py, the
    pattern-only "conservative" policy) and [p_FinalPDFOutlineExtractor]
    (p_final_pdf_extractor.py, the score-accumulating "statistical"
    policy), followed by the properties of the specification that are
    established or refuted on them.

    Modelling conventions.
    - Text is a [string] of 8-bit characters.  The embedding is exact for
      ASCII text; [str.lower], [str.isupper], [str.strip] and the regular
      expression classes are given their ASCII meaning, and a character
      above 127 is an uncased, non-blank, non-digit symbol.
    - Font sizes, coordinates and scores are Python floats in the source.
      A finite float is a rational, and they are taken as rationals ([Q]);
      comparisons of floats are comparisons of these rationals.  The mean
      of the sizes and the sums and differences the statistical extractor
      forms with it are rounded to the nearest binary64 value, ties to
      even, as the source computes them ([Binary64.fl]).  The constants the
      scorers accumulate (3.5, 2.5, 1.5, 1.0, 0.5, ...) are dyadic and
      their sums are exact; the title score of the conservative extractor
      and the average size of the spans of a line are exact rationals.
    - The fragments are the input: reading them out of a PDF
      ([extract_text_blocks], [extract_text_with_layout]) is outside the
      embedding, so [extract_outline] starts from the fragment list.
    - [list.sort] is stable; it is an insertion sort on the key's strict
      order [<], the only comparison Python's sort performs. *)

From Stdlib Require Import List String Ascii ZArith QArith Qminmax Bool Lia Lqa Arith Sorted.
From Stdlib Require Import SpecFloat PrimFloat FloatOps.
Import ListNotations.

Local Open Scope string_scope.
Local Open Scope list_scope.

(* ================================================================== *)
(** ** Python string primitives *)
(* ================================================================== *)

Module PyStr.

Definition code (c : ascii) : nat := nat_of_ascii c.

Definition in_range (lo hi : nat) (c : ascii) : bool :=
  (lo <=? code c)%nat && (code c <=? hi)%nat.

(** [str.isspace] on one character: TAB LF VT FF CR, FS GS RS US, SPACE. *)
Definition is_space (c : ascii) : bool :=
  in_range 9 13 c || in_range 28 32 c.

Definition is_upper (c : ascii) : bool := in_range 65 90 c.
Definition is_lower (c : ascii) : bool := in_range 97 122 c.
Definition is_digit (c : ascii) : bool := in_range 48 57 c.

Definition lower_char (c : ascii) : ascii :=
  if is_upper c then ascii_of_nat (code c + 32) else c.

(** [s.lower()] *)
Fixpoint lower (s : string) : string :=
  match s with
  | EmptyString => EmptyString
  | String c s' => String (lower_char c) (lower s')
  end.

(** [s.lstrip()], [s.rstrip()], [s.strip()] *)
Fixpoint lstrip (s : string) : string :=
  match s with
  | EmptyString => EmptyString
  | String c s' => if is_space c then lstrip s' else s
  end.

Fixpoint rstrip (s : string) : string :=
  match s with
  | EmptyString => EmptyString
  | String c s' =>
      match rstrip s' with
      | EmptyString => if is_space c then EmptyString else String c EmptyString
      | r => String c r
      end
  end.

Definition strip (s : string) : string := rstrip (lstrip s).

(** [s.startswith(p)] *)
Definition startswith (s p : string) : bool := String.prefix p s.

(** [s.startswith((p1, ..., pn))] *)
Definition startswith_any (s : string) (ps : list string) : bool :=
  existsb (startswith s) ps.

(** [sub in s] *)
Fixpoint contains (sub s : string) : bool :=
  String.prefix sub s ||
  match s with
  | EmptyString => false
  | String _ s' => contains sub s'
  end.

(** [s.endswith(p)] *)
Definition endswith (s p : string) : bool :=
  (String.length p <=? String.length s)%nat &&
  String.eqb (substring (String.length s - String.length p) (String.length p) s) p.

(** [s.count(c)] for a one-character [c] *)
Fixpoint count_char (c : ascii) (s : string) : nat :=
  match s with
  | EmptyString => 0
  | String d s' => (if Ascii.eqb c d then 1 else 0) + count_char c s'
  end.

Fixpoint any_char (p : ascii -> bool) (s : string) : bool :=
  match s with
  | EmptyString => false
  | String c s' => p c || any_char p s'
  end.

(** [s.isupper()]: some cased character, and no lowercase one. *)
Definition isupper (s : string) : bool :=
  any_char is_upper s && negb (any_char is_lower s).

(** [s[0].islower()], false on the empty string (the source guards with
    [text and ...]). *)
Definition first_islower (s : string) : bool :=
  match s with
  | EmptyString => false
  | String c _ => is_lower c
  end.

(** [s[:n]] *)
Definition take (n : nat) (s : string) : string := substring 0 n s.

(** [len(s.split())]: the number of maximal runs of non-blank characters.
    [inw] tells whether the previous character was part of a word. *)
Fixpoint count_words_from (inw : bool) (s : string) : nat :=
  match s with
  | EmptyString => 0
  | String c s' =>
      if is_space c then count_words_from false s'
      else (if inw then 0 else 1) + count_words_from true s'
  end.

Definition count_words (s : string) : nat := count_words_from false s.

(** [re.sub(r'\s+', ' ', s)]: every maximal run of blanks becomes one
    space.  [insp] tells whether the previous character was a blank. *)
Fixpoint collapse_from (insp : bool) (s : string) : string :=
  match s with
  | EmptyString => EmptyString
  | String c s' =>
      if is_space c
      then (if insp then collapse_from true s'
            else String " "%char (collapse_from true s'))
      else String c (collapse_from false s')
  end.

Definition collapse_ws (s : string) : string := collapse_from false s.

(** [a < b] on [str]: lexicographic on character codes. *)
Definition str_ltb (a b : string) : bool := String.ltb a b.

End PyStr.

(* ================================================================== *)
(** ** Regular expressions ([re.match]) *)
(* ================================================================== *)

Module Re.
Import PyStr.

(** The patterns of the source use classes, concatenation, alternation,
    [*], [+], [?] and a final [$] only: no back-reference and no
    look-around, so that [re.match] succeeds exactly when some prefix of
    the subject belongs to the language of the pattern.  Lazy quantifiers
    ([.*?]) denote the same language as greedy ones. *)
Inductive re : Type :=
| Emp                       (* no string *)
| Eps                       (* the empty string *)
| Cls (p : ascii -> bool)   (* one character of a class *)
| Cat (r1 r2 : re)
| Alt (r1 r2 : re)
| Star (r : re).

Fixpoint nullable (r : re) : bool :=
  match r with
  | Emp => false
  | Eps => true
  | Cls _ => false
  | Cat r1 r2 => nullable r1 && nullable r2
  | Alt r1 r2 => nullable r1 || nullable r2
  | Star _ => true
  end.

Definition mkCat (r1 r2 : re) : re :=
  match r1, r2 with
  | Emp, _ => Emp
  | _, Emp => Emp
  | Eps, _ => r2
  | _, _ => Cat r1 r2
  end.

Definition mkAlt (r1 r2 : re) : re :=
  match r1, r2 with
  | Emp, _ => r2
  | _, Emp => r1
  | _, _ => Alt r1 r2
  end.

(** Brzozowski derivative. *)
Fixpoint deriv (c : ascii) (r : re) : re :=
  match r with
  | Emp => Emp
  | Eps => Emp
  | Cls p => if p c then Eps else Emp
  | Cat r1 r2 =>
      if nullable r1
      then mkAlt (mkCat (deriv c r1) r2) (deriv c r2)
      else mkCat (deriv c r1) r2
  | Alt r1 r2 => mkAlt (deriv c r1) (deriv c r2)
  | Star r1 => mkCat (deriv c r1) (Star r1)
  end.

(** The whole of [s] is in the language of [r]. *)
Fixpoint full (r : re) (s : string) : bool :=
  match s with
  | EmptyString => nullable r
  | String c s' => full (deriv c r) s'
  end.

(** [re.match(r, s)] for a pattern without [$]: some prefix matches. *)
Fixpoint match_prefix (r : re) (s : string) : bool :=
  nullable r ||
  match s with
  | EmptyString => false
  | String c s' => match_prefix (deriv c r) s'
  end.

(** [s[:-1]] when [s] ends with a line feed. *)
Fixpoint chop_newline (s : string) : option string :=
  match s with
  | EmptyString => None
  | String c EmptyString => if Ascii.eqb c "010"%char then Some EmptyString else None
  | String c s' => option_map (String c) (chop_newline s')
  end.

(** [re.match(r + '$', s)]: [$] holds at the end of the subject and just
    before a line feed that ends it. *)
Definition match_end (r : re) (s : string) : bool :=
  full r s ||
  match chop_newline s with
  | Some s' => full r s'
  | None => false
  end.

(** *** Pattern combinators *)

Definition plus (r : re) : re := Cat r (Star r).
Definition opt (r : re) : re := Alt Eps r.

Fixpoint alts (rs : list re) : re :=
  match rs with
  | [] => Emp
  | [r] => r
  | r :: rs' => Alt r (alts rs')
  end.

Fixpoint seq (rs : list re) : re :=
  match rs with
  | [] => Eps
  | [r] => r
  | r :: rs' => Cat r (seq rs')
  end.

(** A literal character; [ci] is the [re.IGNORECASE] flag. *)
Definition chr (ci : bool) (c : ascii) : re :=
  Cls (fun x => if ci then Ascii.eqb (lower_char x) (lower_char c) else Ascii.eqb x c).

(** A literal string. *)
Fixpoint lit (ci : bool) (s : string) : re :=
  match s with
  | EmptyString => Eps
  | String c EmptyString => chr ci c
  | String c s' => Cat (chr ci c) (lit ci s')
  end.

(** [\s], [\d], [.] *)
Definition ws : re := Cls is_space.
Definition digit : re := Cls is_digit.
Definition dot : re := Cls (fun c => negb (Ascii.eqb c "010"%char)).

(** [[A-Z]] and [[a-z]]; under [re.IGNORECASE] both match any letter. *)
Definition upper (ci : bool) : re :=
  Cls (fun c => is_upper c || (ci && is_lower c)).
Definition lower_cls (ci : bool) : re :=
  Cls (fun c => is_lower c || (ci && is_upper c)).

(** A class given by its members, as in [[IVX]]. *)
Definition one_of (s : string) : re :=
  Cls (fun c => any_char (Ascii.eqb c) s).

End Re.

(* ================================================================== *)
(** ** Numbers, sorting and the output shape shared by both extractors *)
(* ================================================================== *)

(** [a < b] on numbers. *)
Definition Qltb (a b : Q) : bool := negb (Qle_bool b a).

(** [a >= b] on numbers. *)
Definition Qgeb (a b : Q) : bool := Qle_bool b a.

Definition Qnat (n : nat) : Q := inject_Z (Z.of_nat n).

(** Binary64 arithmetic on the rationals that are floats. *)
Module Binary64.

(** The format: 53 bits of mantissa, infinities at exponent 1024. *)
Definition prec : Z := 53.
Definition emax : Z := 1024.

(** The rational a float stands for, in lowest terms.  [beyond] is given
    for an infinity or a NaN. *)
Definition value (beyond : Q) (x : spec_float) : Q :=
  match x with
  | S754_zero _ => 0
  | S754_finite s m e =>
      Qred ((if s then - inject_Z (Zpos m) else inject_Z (Zpos m)) * Qpower 2 e)
  | _ => beyond
  end.

(** The float nearest to [q], ties to even: the correctly rounded
    quotient of the numerator by the denominator, by the division of the
    standard library's specification of IEEE 754.  A [q] beyond the
    largest float is left as it is; the mean of floats, and that mean plus
    or minus a small constant, are never beyond it. *)
Definition fl (q : Q) : Q :=
  let r := Qred q in
  match Qnum r with
  | Z0 => 0
  | Zpos p =>
      value r (SFdiv prec emax (S754_finite false p 0)
                     (S754_finite false (Qden r) 0))
  | Zneg p =>
      value r (SFdiv prec emax (S754_finite true p 0)
                     (S754_finite false (Qden r) 0))
  end.

(** [a + b], [a - b] and [a / b] on floats. *)
Definition fadd (a b : Q) : Q := fl (a + b).
Definition fsub (a b : Q) : Q := fl (a - b).
Definition fdiv (a b : Q) : Q := fl (a / b).

End Binary64.

Section StableSort.
Context {A : Type}.
(** [lt x y]: the key of [x] is strictly below the key of [y]. *)
Variable lt : A -> A -> bool.

(** [x] comes before every element of [l] in the original order: it
    passes the elements whose key is strictly smaller and stops in front
    of the first other one, so equal keys keep their order. *)
Fixpoint insert (x : A) (l : list A) : list A :=
  match l with
  | [] => [x]
  | y :: l' => if lt y x then y :: insert x l' else x :: l
  end.

(** [l.sort(key=...)] / [sorted(l, key=...)] *)
Fixpoint sort (l : list A) : list A :=
  match l with
  | [] => []
  | x :: l' => insert x (sort l')
  end.

End StableSort.

(** Heading levels as the code writes them: the strings ['H1'] to ['H4'],
    and ['CONTENT'] for a fragment that is no heading. *)
Inductive Level : Type := H1 | H2 | H3 | H4 | CONTENT.

Definition Level_eqb (a b : Level) : bool :=
  match a, b with
  | H1, H1 | H2, H2 | H3, H3 | H4, H4 | CONTENT, CONTENT => true
  | _, _ => false
  end.

(** One entry of the outline: [{'level': .., 'text': .., 'page': ..}]. *)
Record Entry : Type := mkEntry {
  e_level : Level;
  e_text : string;
  e_page : Z
}.

(** The result: [{'title': .., 'outline': [..]}]. *)
Record Result : Type := mkResult {
  title : string;
  outline : list Entry
}.

(** The types [detect_document_type] and [should_extract_headings] name:
    ['form'], ['invitation'], ['flyer'], ['certificate'], ['simple'],
    ['complex_document'], ['standard_document']. *)
Inductive DocType : Type :=
| Form | Invitation | Flyer | Certificate
| Simple | ComplexDocument | StandardDocument.

Definition DocType_eqb (a b : DocType) : bool :=
  match a, b with
  | Form, Form | Invitation, Invitation | Flyer, Flyer
  | Certificate, Certificate | Simple, Simple
  | ComplexDocument, ComplexDocument
  | StandardDocument, StandardDocument => true
  | _, _ => false
  end.

(* ================================================================== *)
(** ** Enhanced_pdf_extractor.py: the conservative extractor *)
(* ================================================================== *)

Module Enhanced.
Import PyStr Re.

(** A text block: ['text'], ['page'], ['font_info']['size'],
    ['font_info']['is_bold'] and ['position']['y'], the fields the
    extractor reads. *)
Record Block : Type := mkBlock {
  text : string;
  page : Z;
  size : Q;
  is_bold : bool;
  pos_y : Q
}.

(** [self.heading_patterns], all compiled with [re.IGNORECASE] and all
    closed by [$]. *)

(** [^\s*(\d+)\.\s+([A-Z][a-z].*?[a-z])\s*$] *)
Definition h1_definite : re :=
  seq [Star ws; plus digit; chr true "."; plus ws;
       upper true; lower_cls true; Star dot; lower_cls true; Star ws].

(** [^\s*(\d+)\.(\d+)\s+([A-Z][a-z].*?[a-z])\s*$] *)
Definition h2_definite : re :=
  seq [Star ws; plus digit; chr true "."; plus digit; plus ws;
       upper true; lower_cls true; Star dot; lower_cls true; Star ws].

(** [^\s*(Table of Contents|References|Bibliography|Acknowledgements?|
    Abstract|Summary|Introduction|Conclusion|Appendix [A-Z])\s*$] *)
Definition h1_special : re :=
  seq [Star ws;
       alts [lit true "Table of Contents"; lit true "References";
             lit true "Bibliography";
             Cat (lit true "Acknowledgement") (opt (chr true "s"));
             lit true "Abstract"; lit true "Summary";
             lit true "Introduction"; lit true "Conclusion";
             Cat (lit true "Appendix ") (upper true)];
       Star ws].

(** [self.document_type_indicators] *)
Definition document_type_indicators : list (DocType * list string) :=
  [ (Form, ["application"; "form"; "for:"; "date:"; "name:"; "address:";
            "rsvp:"; "signature"]);
    (Invitation, ["invited"; "party"; "celebration"; "event"; "rsvp";
                  "please join"]);
    (Flyer, ["sale"; "discount"; "special offer"; "limited time";
             "call now"]);
    (Certificate, ["certificate"; "certifies"; "completion";
                   "achievement"]) ].

(** [self.never_headings] *)
Definition never_headings : list string :=
  ["www."; "http"; ".com"; ".org"; "email"; "@";
   "copyright"; "©"; "page"; "version"; "date:";
   "rsvp:"; "address:"; "phone:"; "contact:";
   "___"; "---"; "..."; "signature"; "print name"].

(** [type_scores.get(t, 0)] *)
Fixpoint get (scores : list (DocType * nat)) (t : DocType) : nat :=
  match scores with
  | [] => 0
  | (t', n) :: rest => if DocType_eqb t' t then n else get rest t
  end.

(** [' '.join([block['text'].lower() for block in blocks])] *)
Definition all_text (blocks : list Block) : string :=
  String.concat " " (map (fun b => lower (text b)) blocks).

(** The dictionary [type_scores] built by the first loop. *)
Definition type_scores (blocks : list Block) : list (DocType * nat) :=
  map (fun '(doc_type, indicators) =>
         (doc_type,
          List.length (filter (fun i => contains i (all_text blocks)) indicators)))
      document_type_indicators.

Definition total_blocks (blocks : list Block) : nat := List.length blocks.

(** [sum(len(block['text']) for block in blocks) / max(total_blocks, 1)] *)
Definition avg_text_length (blocks : list Block) : Q :=
  Qnat (list_sum (map (fun b => String.length (text b)) blocks))
  / Qnat (Nat.max (total_blocks blocks) 1).

Definition detect_document_type (blocks : list Block) : DocType :=
  let scores := type_scores blocks in
  if (total_blocks blocks <? 20)%nat && Qltb (avg_text_length blocks) 50 then
    if (2 <? get scores Form)%nat then Form
    else if (1 <? get scores Invitation)%nat then Invitation
    else if (1 <? get scores Flyer)%nat then Flyer
    else Simple
  else if (100 <? total_blocks blocks)%nat then ComplexDocument
  else StandardDocument.

Definition _is_navigation_text (t : string) : bool :=
  let text_lower := lower t in
  let nav_indicators :=
    ["page "; "copyright"; "©"; "www."; "http"; "@";
     ".com"; ".org"; "version"; "date:"; "revised";
     "rsvp:"; "phone:"; "address:"; "email:"] in
  existsb (fun indicator => contains indicator text_lower) nav_indicators.

(** The score of one block in [_extract_title_from_visual_document]. *)
Definition visual_score (b : Block) (t : string) : Q :=
  let s0 := 0 in
  let s1 := if Qltb 14 (size b) then s0 + size b / 4 else s0 in
  let s2 := if is_bold b then s1 + 10 else s1 in
  let s3 := if (5 <? String.length t)%nat && (String.length t <? 80)%nat
            then s2 + 5 else s2 in
  let s4 := if isupper t then s3 + 8 else s3 in
  let s5 := if negb (any_char (fun c => any_char (Ascii.eqb c) t) ".,!?")
            then s4 + 3 else s4 in
  let s6 := if Qltb (pos_y b) 200 then s5 + 5 else s5 in
  s6.

Definition _extract_title_from_visual_document (blocks : list Block) : string :=
  let first_page_blocks := firstn 10 (filter (fun b => (page b =? 1)%Z) blocks) in
  let '(best_candidate, _) :=
    fold_left
      (fun '(best_candidate, best_score) b =>
         let t := strip (text b) in
         if (String.length t <? 3)%nat
            || existsb (fun indicator => contains indicator (lower t)) never_headings
            || startswith_any (lower t) ["page"; "copyright"; "©"]
         then (best_candidate, best_score)
         else
           let score := visual_score b t in
           if Qltb best_score score then (Some t, score)
           else (best_candidate, best_score))
      first_page_blocks (None, 0) in
  match best_candidate with
  | Some (String c t) => String c t
  | _ =>
      match
        find (fun b =>
                let t := strip (text b) in
                (3 <? String.length t)%nat
                && negb (existsb (fun indicator => contains indicator (lower t))
                                 never_headings))
             first_page_blocks
      with
      | Some b => strip (text b)
      | None => "Document Title"
      end
  end.

Definition _extract_title_from_structured_document (blocks : list Block) : string :=
  let first_page_blocks := filter (fun b => (page b =? 1)%Z) blocks in
  match
    find (fun b =>
            let t := strip (text b) in
            (10 <? String.length t)%nat && (String.length t <? 150)%nat
            && negb (_is_navigation_text t)
            && negb (startswith_any (lower t) ["page"; "copyright"; "©"]))
         (firstn 5 first_page_blocks)
  with
  | Some b => strip (text b)
  | None => "Document Title"
  end.

Definition _extract_title_from_simple_document (blocks : list Block) : string :=
  match
    find (fun b =>
            let t := strip (text b) in
            (5 <? String.length t)%nat && (String.length t <? 100)%nat)
         (firstn 5 blocks)
  with
  | Some b => strip (text b)
  | None => "Document Title"
  end.

Definition extract_title_enhanced (blocks : list Block) (doc_type : DocType) : string :=
  match blocks with
  | [] => "Document Title"
  | _ =>
      match doc_type with
      | Invitation | Flyer | Form => _extract_title_from_visual_document blocks
      | ComplexDocument | StandardDocument =>
          _extract_title_from_structured_document blocks
      | _ => _extract_title_from_simple_document blocks
      end
  end.

Definition should_extract_headings (doc_type : DocType) (blocks : list Block) : bool :=
  match doc_type with
  | Form | Invitation | Flyer | Certificate => false
  | _ =>
      if (List.length blocks <? 15)%nat then false
      else
        let has_numbered_sections :=
          existsb (fun b => match_end h1_definite (text b)
                            || match_end h2_definite (text b)) blocks in
        let has_special_sections :=
          existsb (fun b => match_end h1_special (text b)) blocks in
        has_numbered_sections || has_special_sections
  end.

(** The immediate disqualifiers of the scorer, on the stripped text. *)
Definition disqualified (t : string) : bool :=
  (String.length t <? 4)%nat || (100 <? String.length t)%nat
  || existsb (fun never => contains never (lower t)) never_headings
  || contains "___" t || contains "---" t || contains "..." t.

Definition calculate_ultra_conservative_heading_score
    (b : Block) (doc_type : DocType) : Level * Q :=
  let t := strip (text b) in
  if disqualified t then (CONTENT, 0)
  else
    let '(sH1, sH2) :=
      if match_end h1_definite t then (100, 0)
      else if match_end h2_definite t then (0, 100)
      else if match_end h1_special t then (90, 0)
      else (0, 0) in
    if Qgeb sH1 80 then (H1, Qmin (sH1 / 100) 1)
    else if Qgeb sH2 80 then (H2, Qmin (sH2 / 100) 1)
    else (CONTENT, 0).

(** An element of [potential_headings]. *)
Record Heading : Type := mkHeading {
  h_level : Level;
  h_text : string;
  h_page : Z;
  h_confidence : Q
}.

(** The heading one block contributes to [potential_headings]. *)
Definition candidate_of (doc_type : DocType) (b : Block) : list Heading :=
  let t := strip (text b) in
  let '(level, confidence) :=
    calculate_ultra_conservative_heading_score b doc_type in
  if negb (Level_eqb level CONTENT) && Qgeb confidence (8 # 10)
  then [mkHeading level t (page b) confidence]
  else [].

(** The scoring loop of [extract_outline]. *)
Definition potential_headings (blocks : list Block) (doc_type : DocType)
  : list Heading :=
  flat_map (candidate_of doc_type) blocks.

(** [(x['page'], x['text'])] compared as tuples. *)
Definition key_lt (a b : Heading) : bool :=
  if (h_page a =? h_page b)%Z then str_ltb (h_text a) (h_text b)
  else (h_page a <? h_page b)%Z.

(** The loop that keeps the first heading of every text. *)
Definition remove_duplicates (hs : list Heading) : list Heading :=
  fold_left
    (fun final_headings heading =>
       if negb (existsb (fun h => String.eqb (h_text h) (h_text heading))
                        final_headings)
       then final_headings ++ [heading]
       else final_headings)
    hs [].

Definition format (h : Heading) : Entry :=
  mkEntry (h_level h) (h_text h) (h_page h).

(** [extract_outline], from the blocks [extract_text_blocks] returned. *)
Definition extract_outline (blocks : list Block) : Result :=
  match blocks with
  | [] => mkResult "Empty Document" []
  | _ =>
      let doc_type := detect_document_type blocks in
      let title := extract_title_enhanced blocks doc_type in
      if negb (should_extract_headings doc_type blocks)
      then mkResult title []
      else
        let sorted := sort key_lt (potential_headings blocks doc_type) in
        mkResult title (map format (remove_duplicates sorted))
  end.

End Enhanced.

(* ================================================================== *)
(** ** p_final_pdf_extractor.py: the statistical extractor *)
(* ================================================================== *)

Module PFinal.
Import PyStr Re.

(** A text item: ['text'], ['page'], ['x'], ['y'], ['size'], ['is_bold'],
    the fields the extractor reads. *)
Record Item : Type := mkItem {
  text : string;
  page : Z;
  x : Q;
  y : Q;
  size : Q;
  is_bold : bool
}.

Definition with_text (i : Item) (t : string) : Item :=
  mkItem t (page i) (x i) (y i) (size i) (is_bold i).

(** [^\d+$], [^\d+\s*$], [^[0-9\s\-]+$] *)
Definition re_digits : re := plus digit.
Definition re_page_number : re := Cat (plus digit) (Star ws).
Definition re_digits_blanks_dashes : re :=
  plus (Cls (fun c => is_digit c || is_space c || Ascii.eqb c "-")).

(** [header_footer_patterns], matched with [re.IGNORECASE]. *)
Definition header_footer_patterns : list re :=
  [ (* ^RFP: To Develop.*March 2003.*\d+$ *)
    seq [lit true "RFP: To Develop"; Star dot; lit true "March 2003";
         Star dot; plus digit];
    (* ^\d+\s*$ *)
    re_page_number;
    (* ^March \d+, \d+$ *)
    seq [lit true "March "; plus digit; lit true ", "; plus digit] ].

Definition is_header_footer (t : string) (item : Item) : bool :=
  let page_height := 800 in
  if (Qltb (page_height * (9 # 10)) (y item) || Qltb (y item) 50)
     && ((String.length t <? 80)%nat
         && (contains "RFP:" t || contains "March 2003" t
             || match_end re_digits (strip t)
             || contains "Business Plan" t))
  then true
  else existsb (fun pattern => match_end pattern t) header_footer_patterns.

Definition clean_and_filter_text (text_items : list Item) : list Item :=
  flat_map
    (fun item =>
       let t := strip (text item) in
       if (String.length t <? 2)%nat then []
       else if is_header_footer t item then []
       else if match_end re_digits_blanks_dashes t && (String.length t <? 10)%nat
       then []
       else [with_text item (collapse_ws t)])
    text_items.

(** [(x['y'], x['x'])] compared as tuples. *)
Definition position_lt (a b : Item) : bool :=
  if Qeq_bool (y a) (y b) then Qltb (x a) (x b) else Qltb (y a) (y b).

(** [(-x[1], x[2])] on the triples [(text, size, y)]. *)
Definition candidate_lt (a b : string * Q * Q) : bool :=
  let '(_, sa, ya) := a in
  let '(_, sb, yb) := b in
  if Qeq_bool (- sa) (- sb) then Qltb ya yb else Qltb (- sa) (- sb).

Definition detect_title_advanced (text_items : list Item) : string :=
  match text_items with
  | [] => "Untitled Document"
  | _ =>
      let first_page :=
        sort position_lt (filter (fun item => (page item =? 1)%Z) text_items) in
      let title_candidates :=
        flat_map
          (fun item =>
             let t := strip (text item) in
             if (String.length t <? 5)%nat then []
             else if startswith_any (lower t) ["page "; "chapter "; "section "]
                     || match_end re_page_number t
                     || contains "March 2003" t
             then []
             else if Qltb (y item) 300 && (8 <? String.length t)%nat
                     && Qgeb (size item) 12
             then [(t, size item, y item)]
             else [])
          (firstn 8 first_page) in
      match sort candidate_lt title_candidates with
      | [] => "Document"
      | (best_candidate, _, _) :: rest =>
          let title0 := strip (collapse_ws best_candidate) in
          let title1 :=
            if (15 <? count_words title0)%nat || (20 <? count_char " " title0)%nat
            then
              match
                find (fun '(candidate, _, _) =>
                        (5 <? count_words candidate)%nat
                        && (count_words candidate <? 15)%nat)
                     (firstn 2 rest)
              with
              | Some (candidate, _, _) => candidate
              | None => title0
              end
            else title0 in
          take 150 title1
      end
  end.

(** [size_stats]: ['mean'], ['median'], ['sizes']. *)
Record SizeStats : Type := mkStats {
  mean : Q;
  median : Q;
  sizes : list Q
}.

(** [thresholds]: ['h1'], ['h2'], ['h3'], ['body']. *)
Record Thresholds : Type := mkThresholds {
  h1 : Q;
  h2 : Q;
  h3 : Q;
  body : Q
}.

(** [statistics.mean]: the exact sum of the values over their number,
    rounded once. *)
Definition statistics_mean (l : list Q) : Q :=
  Binary64.fl (fold_right Qplus 0 l / Qnat (List.length l)).

(** [statistics.median] *)
Definition statistics_median (l : list Q) : Q :=
  let s := sort Qltb l in
  let n := List.length s in
  if Nat.odd n then nth (n / 2) s 0
  else Binary64.fdiv (Binary64.fadd (nth (n / 2 - 1) s 0) (nth (n / 2) s 0)) 2.

(** [set(l)]: one representative of every value. *)
Fixpoint distinct (l : list Q) : list Q :=
  match l with
  | [] => []
  | q :: l' => if existsb (Qeq_bool q) l' then distinct l' else q :: distinct l'
  end.

(** [sorted(set(l), reverse=True)] *)
Definition sorted_set_desc (l : list Q) : list Q :=
  sort (fun a b => Qltb b a) (distinct l).

(** [[item['size'] for item in text_items if item['size'] > 0]] *)
Definition positive_sizes (text_items : list Item) : list Q :=
  filter (fun s => Qltb 0 s) (map size text_items).

Definition size_stats_of (szs : list Q) : SizeStats :=
  mkStats (statistics_mean szs) (statistics_median szs) (sorted_set_desc szs).

Definition is_obviously_body_text (t : string) : bool :=
  if (2 <=? count_char "." t)%nat && negb (endswith t ".") then true
  else if first_islower t && negb (startswith_any t ["e-"; "i.e."; "etc."])
  then true
  else if (150 <? String.length t)%nat && contains " " t then true
  else
    let body_starters :=
      ["The "; "This "; "It "; "We "; "Our "; "In order"; "For the"] in
    existsb (fun starter => startswith t starter) body_starters.

Definition could_be_heading (t : string) (sz mean_size : Q) : bool :=
  if (String.length t <? 3)%nat || (200 <? String.length t)%nat then false
  else if Qltb sz (Binary64.fsub mean_size 1) then false
  else if is_obviously_body_text t then false
  else true.

Definition calculate_heading_thresholds (size_stats : SizeStats) : Thresholds :=
  let szs := sizes size_stats in
  let mean_size := mean size_stats in
  if (4 <=? List.length szs)%nat then
    mkThresholds (nth 0 szs 0) (nth 1 szs 0) (nth 2 szs 0) mean_size
  else if (2 <=? List.length szs)%nat then
    mkThresholds (nth 0 szs 0)
                 (if (1 <? List.length szs)%nat then nth 1 szs 0
                  else Binary64.fsub (nth 0 szs 0) 1)
                 (Binary64.fadd mean_size 1) mean_size
  else
    mkThresholds (Binary64.fadd mean_size 4) (Binary64.fadd mean_size 2)
                 (Binary64.fadd mean_size 1) mean_size.

(** The pattern table of [matches_heading_pattern]; the flag tells whether
    the pattern is closed by [$]. *)
Definition heading_patterns : list (re * bool) :=
  [ (* ^(Chapter|Section|Part|Appendix)\s+[IVX0-9]+ *)
    (seq [alts [lit false "Chapter"; lit false "Section"; lit false "Part";
                lit false "Appendix"];
          plus ws; plus (Cls (fun c => any_char (Ascii.eqb c) "IVX" || is_digit c))],
     false);
    (* ^\d+\.\d*\s+[A-Z] *)
    (seq [plus digit; chr false "."; Star digit; plus ws; upper false], false);
    (* ^[A-Z][a-z]+.*:$ *)
    (seq [upper false; plus (lower_cls false); Star dot; chr false ":"], true);
    (* ^(Summary|Background|Introduction|Conclusion|Overview|Abstract)$ *)
    (alts [lit false "Summary"; lit false "Background"; lit false "Introduction";
           lit false "Conclusion"; lit false "Overview"; lit false "Abstract"],
     true);
    (* ^Phase\s+[IVX]+:? *)
    (seq [lit false "Phase"; plus ws; plus (one_of "IVX"); opt (chr false ":")],
     false);
    (* ^Appendix\s+[A-Z]: *)
    (seq [lit false "Appendix"; plus ws; upper false; chr false ":"], false);
    (* ^[A-Z][A-Z\s]+$ *)
    (seq [upper false; plus (Cls (fun c => is_upper c || is_space c))], true);
    (* ^(What|How|Why|Where|When)\s+[a-z] *)
    (seq [alts [lit false "What"; lit false "How"; lit false "Why";
                lit false "Where"; lit false "When"];
          plus ws; lower_cls false],
     false) ].

Definition re_match (p : re * bool) (t : string) : bool :=
  if snd p then match_end (fst p) t else match_prefix (fst p) t.

Definition matches_heading_pattern (t : string) : bool :=
  existsb (fun pattern => re_match pattern t) heading_patterns.

Definition calculate_confidence_advanced
    (item : Item) (thresholds : Thresholds) (size_stats : SizeStats) : Q :=
  let t := text item in
  let sz := size item in
  let c0 := 0 in
  let c1 :=
    if Qgeb sz (h1 thresholds) then c0 + (35 # 10)
    else if Qgeb sz (h2 thresholds) then c0 + (25 # 10)
    else if Qgeb sz (h3 thresholds) then c0 + (15 # 10)
    else if Qltb (mean size_stats) sz then c0 + 1
    else c0 in
  let c2 := if is_bold item then c1 + 1 else c1 in
  let c3 := if matches_heading_pattern t then c2 + 2 else c2 in
  let c4 := if endswith t ":" then c3 + 1 else c3 in
  let c5 := if isupper t && (5 <? String.length t)%nat
               && (String.length t <? 50)%nat
            then c4 + 1 else c4 in
  let c6 := if Qltb (y item) 100 then c5 + (5 # 10) else c5 in
  let c7 := if (5 <=? String.length t)%nat && (String.length t <=? 80)%nat
            then c6 + (5 # 10)
            else if (150 <? String.length t)%nat then c6 - (15 # 10)
            else c6 in
  c7.

(** The override patterns of [determine_level_advanced]. *)

(** [^Appendix\s+[A-Z]:] *)
Definition re_appendix : re :=
  seq [lit false "Appendix"; plus ws; upper false; chr false ":"].
(** [^\d+\.\d+\s+] *)
Definition re_subsection : re :=
  seq [plus digit; chr false "."; plus digit; plus ws].
(** [^Phase\s+[IVX]+] *)
Definition re_phase : re :=
  seq [lit false "Phase"; plus ws; plus (one_of "IVX")].

(** The level the size alone gives. *)
Definition size_level (sz : Q) (thresholds : Thresholds) : Level :=
  if Qgeb sz (h1 thresholds) then H1
  else if Qgeb sz (h2 thresholds) then H2
  else if Qgeb sz (h3 thresholds) then H3
  else H3.

Definition determine_level_advanced
    (item : Item) (thresholds : Thresholds) (size_stats : SizeStats) : Level :=
  let t := text item in
  let level := size_level (size item) thresholds in
  if match_prefix re_appendix t then H2
  else if existsb (String.eqb t)
                  ["Summary"; "Background"; "Introduction"; "Conclusion"]
  then H2
  else if startswith t "For each" && endswith t ":" then H4
  else if match_prefix re_subsection t then H3
  else if match_prefix re_phase t then H2
  else level.

(** An element of [potential_headings]. *)
Record Heading : Type := mkHeading {
  h_level : Level;
  h_text : string;
  h_page : Z;
  h_size : Q;
  h_confidence : Q;
  h_y : Q
}.

(** [(x['page'], x['y'])] compared as tuples. *)
Definition key_lt (a b : Heading) : bool :=
  if (h_page a =? h_page b)%Z then Qltb (h_y a) (h_y b)
  else (h_page a <? h_page b)%Z.

(** [re.sub(r'\s+', ' ', heading['text'].lower().strip())] *)
Definition normalize (t : string) : string := collapse_ws (strip (lower t)).

(** The test the loop makes on one heading.  [seen_texts] is a Python set
    that is only tested for membership and scanned for some element; the
    list of the texts added so far stands for it. *)
Definition is_dropped (seen_texts : list string) (heading : Heading) : bool :=
  let text_normalized := normalize (h_text heading) in
  if existsb (String.eqb text_normalized) seen_texts then true
  else
    existsb (fun seen_text =>
               (contains text_normalized seen_text
                || contains seen_text text_normalized)
               && (10 <? String.length text_normalized)%nat)
            seen_texts.

Definition project (h : Heading) : Entry :=
  mkEntry (h_level h) (h_text h) (h_page h).

(** The loop over the sorted headings, from the state
    [(seen_texts, filtered_headings)]; it returns the final state. *)
Fixpoint filter_loop (seen_texts : list string) (filtered_headings : list Entry)
    (hs : list Heading) : list string * list Entry :=
  match hs with
  | [] => (seen_texts, filtered_headings)
  | heading :: rest =>
      if is_dropped seen_texts heading
      then filter_loop seen_texts filtered_headings rest
      else filter_loop (seen_texts ++ [normalize (h_text heading)])
                       (filtered_headings ++ [project heading]) rest
  end.

Definition post_process_headings_advanced (headings : list Heading) : list Entry :=
  match headings with
  | [] => []
  | _ =>
      let sorted := sort key_lt headings in
      firstn 50 (snd (filter_loop [] [] sorted))
  end.

(** The candidate one item contributes to [potential_headings]. *)
Definition candidate_of (thresholds : Thresholds) (size_stats : SizeStats)
    (item : Item) : list Heading :=
  let t := strip (text item) in
  let sz := size item in
  if negb (could_be_heading t sz (mean size_stats)) then []
  else
    let confidence := calculate_confidence_advanced item thresholds size_stats in
    if Qltb 2 confidence
    then [mkHeading (determine_level_advanced item thresholds size_stats)
                    t (page item) sz confidence (y item)]
    else [].

Definition potential_headings (text_items : list Item) : list Heading :=
  let size_stats := size_stats_of (positive_sizes text_items) in
  let thresholds := calculate_heading_thresholds size_stats in
  flat_map (candidate_of thresholds size_stats) text_items.

Definition classify_headings_advanced (text_items : list Item) : list Entry :=
  match text_items with
  | [] => []
  | _ =>
      match positive_sizes text_items with
      | [] => []
      | _ => post_process_headings_advanced (potential_headings text_items)
      end
  end.

(** [extract_outline], from the items [extract_text_with_layout] returned. *)
Definition extract_outline (text_items : list Item) : Result :=
  let clean_items := clean_and_filter_text text_items in
  let title := detect_title_advanced clean_items in
  let outline := classify_headings_advanced clean_items in
  mkResult title outline.

End PFinal.


(* ================================================================== *)
(** ** Reading the page dictionary *)
(* ================================================================== *)

Module Layout.
Import PyStr.

(** A bounding box [(x0, y0, x1, y1)]. *)
Record BBox : Type := mkBBox {
  bx0 : Q;
  by0 : Q;
  bx1 : Q;
  by1 : Q
}.

(** [bboxes_overlap] of p_final_pdf_extractor.py. *)
Definition bboxes_overlap (bbox1 bbox2 : BBox) : bool :=
  negb (Qltb (bx1 bbox1) (bx0 bbox2) || Qltb (bx1 bbox2) (bx0 bbox1)
        || Qltb (by1 bbox1) (by0 bbox2) || Qltb (by1 bbox2) (by0 bbox1)).

(** What [page.get_text("dict")] gives, as far as [extract_text_blocks]
    of Enhanced_pdf_extractor.py reads it: a span has a text and may have
    a size and flags; a line has spans and a bounding box; a block may
    have lines.  Every key the loop indexes is present, so its body does
    not raise and the fallback of the [except] branch is not entered. *)
Record Span : Type := mkSpan {
  span_text : string;
  span_size : option Q;
  span_flags : option Z
}.

Record Line : Type := mkLine {
  spans : list Span;
  line_bbox : BBox
}.

Record DictBlock : Type := mkDictBlock {
  lines : option (list Line)
}.

Definition Page : Type := list DictBlock.

(** [span.get("size", 12)] and [span.get("flags", 0)] *)
Definition size_of (s : Span) : Q :=
  match span_size s with Some q => q | None => 12 end.
Definition flags_of (s : Span) : Z :=
  match span_flags s with Some f => f | None => 0%Z end.

(** The body of the loop over the lines: the block one line gives, on
    the page of index [page_num]. *)
Definition line_block (page_num : nat) (line : Line) : list Enhanced.Block :=
  let line_text := String.concat "" (map span_text (spans line)) in
  let font_sizes := map size_of (spans line) in
  let is_bold :=
    existsb (fun s => negb (Z.land (flags_of s) 16 =? 0)%Z) (spans line) in
  match strip line_text with
  | EmptyString => []
  | t =>
      let avg_font_size :=
        match font_sizes with
        | [] => 12
        | _ => fold_right Qplus 0 font_sizes / Qnat (List.length font_sizes)
        end in
      [Enhanced.mkBlock t (Z.of_nat page_num + 1) avg_font_size is_bold
                        (by0 (line_bbox line))]
  end.

Definition page_blocks (page_num : nat) (page : Page) : list Enhanced.Block :=
  flat_map (fun block =>
              match lines block with
              | Some ls => flat_map (line_block page_num) ls
              | None => []
              end)
           page.

(** The loop over the pages, from the page of index [page_num] on. *)
Fixpoint blocks_from (page_num : nat) (doc : list Page) : list Enhanced.Block :=
  match doc with
  | [] => []
  | page :: rest => page_blocks page_num page ++ blocks_from (S page_num) rest
  end.

(** [extract_text_blocks], from the page dictionaries of the document. *)
Definition extract_text_blocks (doc : list Page) : list Enhanced.Block :=
  blocks_from 0 doc.

End Layout.
(* ================================================================== *)
(** ** Vocabulary of the statements *)
(* ================================================================== *)

(** [k] is obtained from [l] by leaving elements out, the others staying
    in their order. *)
Inductive Subseq {A : Type} : list A -> list A -> Prop :=
| Subseq_nil : Subseq [] []
| Subseq_skip (x : A) (k l : list A) : Subseq k l -> Subseq k (x :: l)
| Subseq_keep (x : A) (k l : list A) : Subseq k l -> Subseq (x :: k) (x :: l).

(** The language of a pattern: the strings it matches as a whole. *)
Inductive lang : Re.re -> string -> Prop :=
| lang_eps : lang Re.Eps EmptyString
| lang_cls (p : ascii -> bool) (c : ascii) :
    p c = true -> lang (Re.Cls p) (String c EmptyString)
| lang_cat (r1 r2 : Re.re) (s1 s2 : string) :
    lang r1 s1 -> lang r2 s2 -> lang (Re.Cat r1 r2) (s1 ++ s2)%string
| lang_alt_l (r1 r2 : Re.re) (s : string) :
    lang r1 s -> lang (Re.Alt r1 r2) s
| lang_alt_r (r1 r2 : Re.re) (s : string) :
    lang r2 s -> lang (Re.Alt r1 r2) s
| lang_star_nil (r : Re.re) : lang (Re.Star r) EmptyString
| lang_star_cons (r : Re.re) (s1 s2 : string) :
    lang r s1 -> lang (Re.Star r) s2 -> lang (Re.Star r) (s1 ++ s2)%string.

Section OrderVocabulary.
Context {A : Type}.
(** The strict order of the sort key. *)
Variable lt : A -> A -> bool.

(** [a] is not after [b]: the key of [b] is not strictly below. *)
Definition not_after (a b : A) : Prop := lt b a = false.

(** The key order on elements paired with their original index. *)
Definition ilt (p q : nat * A) : bool := lt (snd p) (snd q).

(** [p] comes before [q]: a smaller key, or a key that is not larger and
    a smaller index. *)
Definition before (p q : nat * A) : Prop :=
  lt (snd p) (snd q) = true
  \/ (lt (snd q) (snd p) = false /\ (fst p < fst q)%nat).

(** The elements of [l] paired with their indices, from [k] on. *)
Definition indexed_from (k : nat) (l : list A) : list (nat * A) :=
  combine (List.seq k (List.length l)) l.

End OrderVocabulary.

(** The order [sorted(.., reverse=True)] sorts numbers with. *)
Definition desc_lt (a b : Q) : bool := Qltb b a.

Module Classifier.
Import Enhanced.

(** The minimum keyword score a sparse document needs for a type. *)
Definition minimum (t : DocType) : nat :=
  match t with
  | Form => 3
  | Invitation | Flyer => 2
  | _ => 0
  end.

Definition score (blocks : list Block) (t : DocType) : nat :=
  get (type_scores blocks) t.

Definition meets (blocks : list Block) (t : DocType) : Prop :=
  (minimum t <= score blocks t)%nat.

(** Fewer than 20 blocks of mean text length below 50. *)
Definition sparse (blocks : list Block) : Prop :=
  (total_blocks blocks < 20)%nat /\ avg_text_length blocks < 50.

End Classifier.

Module Scorer.
Import PyStr Re.

(** No override rule of [determine_level_advanced] applies to [t]. *)
Definition no_override (t : string) : bool :=
  negb (match_prefix PFinal.re_appendix t)
  && negb (existsb (String.eqb t)
                   ["Summary"; "Background"; "Introduction"; "Conclusion"])
  && negb (startswith t "For each" && endswith t ":")
  && negb (match_prefix PFinal.re_subsection t)
  && negb (match_prefix PFinal.re_phase t).

(** The conservative scorer has a pattern that gives [H1] for [t]. *)
Definition h1_pattern (t : string) : bool :=
  match_end Enhanced.h1_definite t
  || (negb (match_end Enhanced.h2_definite t)
      && match_end Enhanced.h1_special t).

End Scorer.

Module Assembler.
Import PyStr.

(** The candidate at index [i] of [cands] comes before the one at index
    [j] in the order (page, vertical position, original index). *)
Definition precedes (cands : list PFinal.Heading) (d : PFinal.Heading)
    (i j : nat) : Prop :=
  let a := nth i cands d in
  let b := nth j cands d in
  (PFinal.h_page a < PFinal.h_page b)%Z
  \/ (PFinal.h_page a = PFinal.h_page b
      /\ (PFinal.h_y a < PFinal.h_y b
          \/ (PFinal.h_y a == PFinal.h_y b /\ (i < j)%nat))).

(** Entry [a] is not after entry [b] in the order (page, text). *)
Definition page_text_le (a b : Entry) : Prop :=
  (e_page a < e_page b)%Z
  \/ (e_page a = e_page b /\ str_ltb (e_text b) (e_text a) = false).

(** The normalized texts of the entries kept so far. *)
Definition seen_of (kept : list Entry) : list string :=
  map (fun e => PFinal.normalize (e_text e)) kept.

(** The condition under which the loop drops a heading whose normalized
    text is [t], given the normalized texts [seen] of the kept ones. *)
Definition drop_condition (seen : list string) (t : string) : Prop :=
  In t seen
  \/ ((10 < String.length t)%nat
      /\ exists s, In s seen /\ (contains t s = true \/ contains s t = true)).

End Assembler.

(* ================================================================== *)
(** ** Sample documents *)
(* ================================================================== *)

Module Samples.

(** A block of plain body text on page 1. *)
Definition plain (t : string) : Enhanced.Block :=
  Enhanced.mkBlock t 1 12 false 100.

(** Two blocks: three form keywords, four invitation keywords. *)
Definition form_and_invitation : list Enhanced.Block :=
  [plain "application form for:"; plain "invited party celebration event"].

(** An invitation of eight short blocks. *)
Definition invitation_card : list Enhanced.Block :=
  [plain "You're invited!"; plain "RSVP: 555-1234"; plain "Date: June 1";
   plain "Bring a friend"; plain "Bring a friend"; plain "Bring a friend";
   plain "Bring a friend"; plain "Bring a friend"].

(** Sixteen blocks on page 1: section 2 printed above section 1, then
    fourteen lines of body text. *)
Definition swapped_sections : list Enhanced.Block :=
  Enhanced.mkBlock "2. Results" 1 14 false 100
  :: Enhanced.mkBlock "1. Introduction" 1 14 false 200
  :: repeat (Enhanced.mkBlock "plain body text of the report" 1 10 false 300) 14.

(** Twenty-two blocks on page 1: a numbered section heading of size 14
    amid twenty-one lines of body text of size 10. *)
Definition numbered_report : list Enhanced.Block :=
  repeat (Enhanced.mkBlock "plain body text of the report" 1 10 false 300) 10
  ++ Enhanced.mkBlock "1. Introduction" 1 14 false 400
  :: repeat (Enhanced.mkBlock "plain body text of the report" 1 10 false 500) 11.

(** Sixteen blocks: the same numbered section heading on pages 1 and 3,
    and fourteen lines of body text. *)
Definition repeated_section : list Enhanced.Block :=
  Enhanced.mkBlock "1. Introduction" 3 14 false 100
  :: Enhanced.mkBlock "1. Introduction" 1 14 false 100
  :: repeat (Enhanced.mkBlock "plain body text of the report" 2 10 false 300) 14.

(** One large "Overview" over two lines of body text. *)
Definition overview_doc : list PFinal.Item :=
  [PFinal.mkItem "Overview" 1 0 160 20 false;
   PFinal.mkItem "body text with no special role" 1 0 200 10 false;
   PFinal.mkItem "body text with no special role" 1 0 240 10 false].

(** Single-item documents. *)
Definition faq_doc : list PFinal.Item :=
  [PFinal.mkItem "FAQ" 1 0 60 12 false].
Definition email_doc : list PFinal.Item :=
  [PFinal.mkItem "Email:" 1 0 160 12 false].

(** A block whose text holds a denylisted word, and an item whose text is
    too short for the statistical pre-filter. *)
Definition contact_block : Enhanced.Block :=
  Enhanced.mkBlock "Contact: the office" 1 14 true 100.
Definition short_item : PFinal.Item :=
  PFinal.mkItem "A." 1 0 60 12 false.

(** Two accepted candidates: a long heading and, below it, a short one
    whose normalized text is part of the long one. *)
Definition long_heading : PFinal.Heading :=
  PFinal.mkHeading H2 "Introduction to x" 1 14 3 10.
Definition short_heading : PFinal.Heading :=
  PFinal.mkHeading H2 "Intro" 1 14 3 20.

(** A heading printed twice, on pages 2 and 5. *)
Definition appendix_p2 : PFinal.Heading :=
  PFinal.mkHeading H2 "Appendix A: Data" 2 14 3 40.
Definition appendix_p5 : PFinal.Heading :=
  PFinal.mkHeading H2 "Appendix A:  data" 5 14 3 40.

(** Three items: a small caption between a heading and body text. *)
Definition caption_doc : list PFinal.Item :=
  [PFinal.mkItem "SUMMARY OF RESULTS" 1 0 60 16 true;
   PFinal.mkItem "SMALL CAPTION" 1 0 90 8 true;
   PFinal.mkItem "body text with no special role" 1 0 200 12 false].

End Samples.

(* ================================================================== *)
(** ** Vocabulary of the further properties *)
(* ================================================================== *)

(** Some character of [s] is not a blank. *)
Definition has_ink (s : string) : bool :=
  PyStr.any_char (fun c => negb (PyStr.is_space c)) s.

Module Titles.
Import PyStr.

(** What the visual strategy has chosen so far. *)
Definition visual_choice (blocks : list Enhanced.Block) (best : option string) : Prop :=
  match best with
  | None => True
  | Some t =>
      exists b, In b blocks /\ Enhanced.page b = 1%Z /\ t = strip (Enhanced.text b)
                /\ (3 <= String.length t)%nat
                /\ existsb (fun indicator => contains indicator (lower t))
                           Enhanced.never_headings = false
  end.

End Titles.

Module Separation.
Import PyStr.

(** Entry [b], listed after entry [a], is no near duplicate of it: the
    normalized texts differ and, when that of [b] has more than 10
    characters, neither is part of the other. *)
Definition separated (a b : Entry) : Prop :=
  let ta := PFinal.normalize (e_text a) in
  let tb := PFinal.normalize (e_text b) in
  ta <> tb
  /\ ((10 < String.length tb)%nat ->
      contains tb ta = false /\ contains ta tb = false).

End Separation.

Module MoreSamples.

(** A plain line of body text of size 12 in a document whose thresholds
    are all above 12. *)
Definition plain_item : PFinal.Item :=
  PFinal.mkItem "Results were stable across runs" 1 0 300 12 false.


(** The same heading on pages 4 and 2, and body text. *)
Definition twice_doc : list PFinal.Item :=
  [PFinal.mkItem "APPENDIX NOTES" 4 0 60 16 true;
   PFinal.mkItem "Appendix  Notes" 2 0 60 16 true;
   PFinal.mkItem "body text with no special role" 1 0 200 10 false;
   PFinal.mkItem "body text with no special role" 1 0 240 10 false].

(** Two pages: a bold title line and a blank line, then a line without
    font information. *)
Definition two_pages : list Layout.Page :=
  [ [Layout.mkDictBlock
       (Some [Layout.mkLine [Layout.mkSpan "  Annual " (Some 18) (Some 20%Z);
                             Layout.mkSpan "Report  " (Some 14) (Some 4%Z)]
                            (Layout.mkBBox 72 90 300 110);
              Layout.mkLine [Layout.mkSpan "   " (Some 10) None]
                            (Layout.mkBBox 72 120 300 130)]);
     Layout.mkDictBlock None];
    [Layout.mkDictBlock
       (Some [Layout.mkLine [Layout.mkSpan "Second page" None None]
                            (Layout.mkBBox 72 80 300 95)])] ].

End MoreSamples.

Module Typography.

(** What the conservative outline reads of a block: its text and page. *)
Definition text_and_page (b : Enhanced.Block) : string * Z :=
  (Enhanced.text b, Enhanced.page b).

(** The block of a text and a page, without typography. *)
Definition bare (k : string * Z) : Enhanced.Block :=
  Enhanced.mkBlock (fst k) (snd k) 0 false 0.

End Typography.

Module Machine.

(** The rational a machine float stands for. *)
Definition rational (x : float) : Q := Binary64.value 0 (Prim2SF x).

(** Three headings in capitals whose sizes are the floats nearest to
    41/3, 41/3 and 50/3. *)
Definition thirds_doc : list PFinal.Item :=
  [PFinal.mkItem "SUMMARY OF RESULTS" 1 0 160 (Binary64.fl (41 # 3)) false;
   PFinal.mkItem "SCOPE OF THE WORK" 1 0 260 (Binary64.fl (41 # 3)) false;
   PFinal.mkItem "PLAN FOR THE YEAR" 1 0 360 (Binary64.fl (50 # 3)) false].

(** One heading of size 2^53. *)
Definition huge_doc : list PFinal.Item :=
  [PFinal.mkItem "SUMMARY OF RESULTS" 1 0 160 9007199254740992 false].

End Machine.

(* ================================================================== *)
(** ** Comparisons on numbers *)
(* ================================================================== *)

Lemma Qltb_true (a b : Q) : Qltb a b = true <-> a < b.
Proof.
  unfold Qltb. rewrite negb_true_iff. split; intro H.
  - apply Qnot_le_lt. intro Hle. apply Qle_bool_iff in Hle. congruence.
  - destruct (Qle_bool b a) eqn:E; [|reflexivity].
    apply Qle_bool_iff in E. exfalso. exact (Qlt_not_le _ _ H E).
Qed.

Lemma Qltb_false (a b : Q) : Qltb a b = false <-> b <= a.
Proof.
  unfold Qltb. rewrite negb_false_iff. apply Qle_bool_iff.
Qed.

Lemma Qgeb_true (a b : Q) : Qgeb a b = true <-> b <= a.
Proof. unfold Qgeb. apply Qle_bool_iff. Qed.

(* ================================================================== *)
(** ** The document type classifier and the heading gate *)
(* ================================================================== *)

Module ClassifierFacts.
Import PyStr Re Enhanced Classifier Samples.

Lemma sparse_test (blocks : list Block) :
  sparse blocks ->
  (total_blocks blocks <? 20)%nat && Qltb (avg_text_length blocks) 50 = true.
Proof.
  intros [Hn Ha]. apply andb_true_iff. split.
  - now apply Nat.ltb_lt.
  - now apply Qltb_true.
Qed.

(** C9: whatever the blocks, [detect_document_type] does not answer
    [Certificate]; the certificate keyword score is nevertheless an entry
    of [type_scores], and the gate does close on [Certificate]. *)
Theorem detect_document_type_never_certificate (blocks : list Block) :
  detect_document_type blocks <> Certificate
  /\ (exists n, In (Certificate, n) (type_scores blocks))
  /\ should_extract_headings Certificate blocks = false.
Proof.
  split; [|split].
  - unfold detect_document_type.
    destruct ((total_blocks blocks <? 20)%nat && Qltb (avg_text_length blocks) 50).
    + destruct (2 <? get (type_scores blocks) Form)%nat; [discriminate|].
      destruct (1 <? get (type_scores blocks) Invitation)%nat; [discriminate|].
      destruct (1 <? get (type_scores blocks) Flyer)%nat; discriminate.
    + destruct (100 <? total_blocks blocks)%nat; discriminate.
  - eexists. unfold type_scores, document_type_indicators. simpl.
    do 3 right. left. reflexivity.
  - reflexivity.
Qed.

(** C1: the gate is closed for the four visual types and for fewer than
    15 blocks, whatever the blocks hold; and when the type is the one the
    classifier gave, the result of the extraction has an empty outline. *)
Theorem gate_closed_outline_empty (doc_type : DocType) (blocks : list Block) :
  In doc_type [Form; Invitation; Flyer; Certificate]
  \/ (List.length blocks < 15)%nat ->
  should_extract_headings doc_type blocks = false
  /\ (doc_type = detect_document_type blocks ->
      outline (extract_outline blocks) = []).
Proof.
  intros H.
  assert (Hgate : should_extract_headings doc_type blocks = false).
  { destruct H as [H | H].
    - simpl in H.
      destruct H as [<- | [<- | [<- | [<- | []]]]]; reflexivity.
    - unfold should_extract_headings.
      apply Nat.ltb_lt in H. rewrite H.
      destruct doc_type; reflexivity. }
  split; [exact Hgate|].
  intros ->. unfold extract_outline.
  destruct blocks as [|b blocks]; [reflexivity|].
  rewrite Hgate. reflexivity.
Qed.

Lemma gate_closed_outline_empty_witness :
  should_extract_headings Invitation invitation_card = false
  /\ (Invitation = detect_document_type invitation_card ->
      outline (extract_outline invitation_card) = []).
Proof.
  apply (gate_closed_outline_empty Invitation invitation_card).
  left. simpl. right. left. reflexivity.
Defined.

(** C3, as the specification has it, fails: both Form (3) and Invitation
    (4) meet their minimum on a sparse document, Invitation scores higher,
    and the classifier answers Form. *)
Lemma highest_score_not_returned :
  sparse form_and_invitation
  /\ meets form_and_invitation Form
  /\ meets form_and_invitation Invitation
  /\ (score form_and_invitation Form < score form_and_invitation Invitation)%nat
  /\ detect_document_type form_and_invitation = Form.
Proof.
  split; [|split; [|split; [|split]]].
  - split.
    + vm_compute. lia.
    + vm_compute. reflexivity.
  - vm_compute. lia.
  - vm_compute. lia.
  - vm_compute. lia.
  - vm_compute. reflexivity.
Qed.

(** C3, amended: on a sparse document the classifier answers the first
    type, in the fixed order Form, Invitation, Flyer, that meets its
    minimum, and Simple when none does. *)
Theorem detect_document_type_sparse_priority (blocks : list Block) :
  sparse blocks ->
  (meets blocks Form -> detect_document_type blocks = Form)
  /\ (~ meets blocks Form -> meets blocks Invitation ->
      detect_document_type blocks = Invitation)
  /\ (~ meets blocks Form -> ~ meets blocks Invitation -> meets blocks Flyer ->
      detect_document_type blocks = Flyer)
  /\ (~ meets blocks Form -> ~ meets blocks Invitation -> ~ meets blocks Flyer ->
      detect_document_type blocks = Simple).
Proof.
  intros Hs. unfold detect_document_type.
  rewrite (sparse_test blocks Hs).
  unfold meets, score, minimum.
  destruct (Nat.ltb_spec 2 (get (type_scores blocks) Form));
  destruct (Nat.ltb_spec 1 (get (type_scores blocks) Invitation));
  destruct (Nat.ltb_spec 1 (get (type_scores blocks) Flyer));
  repeat split; intros; try reflexivity; exfalso; lia.
Qed.

Lemma detect_document_type_sparse_priority_witness :
  (meets form_and_invitation Form ->
   detect_document_type form_and_invitation = Form)
  /\ (~ meets form_and_invitation Form -> meets form_and_invitation Invitation ->
      detect_document_type form_and_invitation = Invitation)
  /\ (~ meets form_and_invitation Form -> ~ meets form_and_invitation Invitation ->
      meets form_and_invitation Flyer ->
      detect_document_type form_and_invitation = Flyer)
  /\ (~ meets form_and_invitation Form -> ~ meets form_and_invitation Invitation ->
      ~ meets form_and_invitation Flyer ->
      detect_document_type form_and_invitation = Simple).
Proof.
  apply (detect_document_type_sparse_priority form_and_invitation).
  split.
  - vm_compute. lia.
  - vm_compute. reflexivity.
Defined.

End ClassifierFacts.

(* ================================================================== *)
(** ** Empty input *)
(* ================================================================== *)

Module EmptyInput.

(** C2, as the specification has it, fails on the statistical extractor:
    without items its title is "Untitled Document". *)
Lemma statistical_empty_title :
  PFinal.extract_outline [] = mkResult "Untitled Document" []
  /\ PFinal.extract_outline [] <> mkResult "Empty Document" [].
Proof.
  split.
  - reflexivity.
  - discriminate.
Qed.

(** C2, amended: without fragments the conservative extractor returns
    the title "Empty Document" and no outline entry; the statistical
    extractor returns the title "Untitled Document" and no outline
    entry. *)
Theorem empty_input_results :
  Enhanced.extract_outline [] = mkResult "Empty Document" []
  /\ PFinal.extract_outline [] = mkResult "Untitled Document" [].
Proof.
  split; reflexivity.
Qed.

End EmptyInput.

(* ================================================================== *)
(** ** Levels and disqualification in the two scorers *)
(* ================================================================== *)

Module ScorerFacts.
Import PyStr Re Scorer Samples.

(** C4, as the specification has it, fails: the level assignment of the
    statistical mode answers [H1] for a fragment at the largest size, and
    the entry reaches the outline. *)
Lemma statistical_mode_assigns_H1 :
  PFinal.determine_level_advanced
    (PFinal.mkItem "Overview" 1 0 160 20 false)
    (PFinal.calculate_heading_thresholds
       (PFinal.size_stats_of (PFinal.positive_sizes overview_doc)))
    (PFinal.size_stats_of (PFinal.positive_sizes overview_doc)) = H1
  /\ PFinal.classify_headings_advanced overview_doc = [mkEntry H1 "Overview" 1].
Proof.
  split; vm_compute; reflexivity.
Qed.

(** C4, amended: both modes assign [H1].  The statistical level
    assignment answers [H1] exactly when the size is at or above the h1
    threshold and no override rule applies to the text; the conservative
    scorer answers [H1] exactly when the stripped text is not disqualified
    and matches the numbered-section pattern, or the special-section
    pattern without matching the numbered-subsection pattern. *)
Theorem H1_in_both_modes :
  (forall (item : PFinal.Item) (thresholds : PFinal.Thresholds)
          (size_stats : PFinal.SizeStats),
      PFinal.determine_level_advanced item thresholds size_stats = H1
      <-> (PFinal.h1 thresholds <= PFinal.size item
           /\ no_override (PFinal.text item) = true))
  /\ (forall (b : Enhanced.Block) (doc_type : DocType),
      fst (Enhanced.calculate_ultra_conservative_heading_score b doc_type) = H1
      <-> (Enhanced.disqualified (strip (Enhanced.text b)) = false
           /\ h1_pattern (strip (Enhanced.text b)) = true)).
Proof.
  split.
  - intros item th st.
    unfold PFinal.determine_level_advanced, no_override, PFinal.size_level.
    rewrite <- Qgeb_true.
    destruct (match_prefix PFinal.re_appendix (PFinal.text item));
      [simpl; split; [discriminate | intros [_ ?]; discriminate]|].
    destruct (existsb (String.eqb (PFinal.text item))
                      ["Summary"; "Background"; "Introduction"; "Conclusion"]);
      [simpl; split; [discriminate | intros [_ ?]; discriminate]|].
    destruct (startswith (PFinal.text item) "For each"
              && endswith (PFinal.text item) ":");
      [simpl; split; [discriminate | intros [_ ?]; discriminate]|].
    destruct (match_prefix PFinal.re_subsection (PFinal.text item));
      [simpl; split; [discriminate | intros [_ ?]; discriminate]|].
    destruct (match_prefix PFinal.re_phase (PFinal.text item));
      [simpl; split; [discriminate | intros [_ ?]; discriminate]|].
    simpl.
    destruct (Qgeb (PFinal.size item) (PFinal.h1 th)).
    + split; auto.
    + split; [|intros [? _]; discriminate].
      destruct (Qgeb (PFinal.size item) (PFinal.h2 th)); [discriminate|].
      destruct (Qgeb (PFinal.size item) (PFinal.h3 th)); discriminate.
  - intros b doc_type.
    unfold Enhanced.calculate_ultra_conservative_heading_score, h1_pattern.
    destruct (Enhanced.disqualified (strip (Enhanced.text b)));
      [simpl; split; [discriminate | intros [? _]; discriminate]|].
    destruct (match_end Enhanced.h1_definite (strip (Enhanced.text b)));
      [simpl; split; auto|].
    destruct (match_end Enhanced.h2_definite (strip (Enhanced.text b)));
      [simpl; split; [discriminate | intros [_ ?]; discriminate]|].
    destruct (match_end Enhanced.h1_special (strip (Enhanced.text b)));
      simpl; split; auto; try discriminate; intros [_ ?]; discriminate.
Qed.

(** C8, as the specification has it, fails on the statistical scorer: a
    text of length 3 passes the pre-filter and becomes an outline entry,
    and so does a text that holds the denylisted ["email"]. *)
Lemma statistical_mode_admits_short_and_denylisted :
  String.length "FAQ" = 3%nat
  /\ PFinal.could_be_heading "FAQ" 12 12 = true
  /\ PFinal.classify_headings_advanced faq_doc = [mkEntry H3 "FAQ" 1]
  /\ contains "email" (lower "Email:") = true
  /\ In "email" Enhanced.never_headings
  /\ PFinal.classify_headings_advanced email_doc = [mkEntry H3 "Email:" 1].
Proof.
  repeat split; try (vm_compute; reflexivity).
  unfold Enhanced.never_headings. simpl. tauto.
Qed.

(** C8, amended: the conservative scorer answers [CONTENT] with
    confidence 0, and contributes no candidate, when the stripped text has
    fewer than 4 or more than 100 characters (so also when it has more
    than 200), holds a denylisted substring once lowercased, or holds a
    placeholder run; the pre-filter of the statistical scorer rejects, and
    the item contributes no candidate, when the stripped text has fewer
    than 3 or more than 200 characters. *)
Theorem disqualification_in_both_modes :
  (forall (b : Enhanced.Block) (doc_type : DocType),
      let t := strip (Enhanced.text b) in
      ((String.length t < 4)%nat \/ (100 < String.length t)%nat
       \/ (exists never, In never Enhanced.never_headings
                         /\ contains never (lower t) = true)
       \/ contains "___" t = true \/ contains "---" t = true
       \/ contains "..." t = true) ->
      Enhanced.calculate_ultra_conservative_heading_score b doc_type
      = (CONTENT, 0)
      /\ Enhanced.candidate_of doc_type b = [])
  /\ (forall (item : PFinal.Item) (thresholds : PFinal.Thresholds)
             (size_stats : PFinal.SizeStats),
      let t := strip (PFinal.text item) in
      ((String.length t < 3)%nat \/ (200 < String.length t)%nat) ->
      PFinal.could_be_heading t (PFinal.size item) (PFinal.mean size_stats)
      = false
      /\ PFinal.candidate_of thresholds size_stats item = []).
Proof.
  split.
  - intros b doc_type t H.
    assert (Hd : Enhanced.disqualified t = true).
    { unfold Enhanced.disqualified.
      destruct H as [H | [H | [[never [Hin Hc]] | [H | [H | H]]]]].
      - apply Nat.ltb_lt in H. rewrite H. reflexivity.
      - apply Nat.ltb_lt in H. rewrite H. now rewrite orb_true_r.
      - assert (E : existsb (fun never0 => contains never0 (lower t))
                            Enhanced.never_headings = true).
        { apply existsb_exists. exists never. split; assumption. }
        rewrite E. now rewrite !orb_true_r.
      - rewrite H. now rewrite !orb_true_r.
      - rewrite H. now rewrite !orb_true_r.
      - rewrite H. now rewrite !orb_true_r. }
    assert (Hs : Enhanced.calculate_ultra_conservative_heading_score b doc_type
                 = (CONTENT, 0)).
    { unfold Enhanced.calculate_ultra_conservative_heading_score.
      fold t. rewrite Hd. reflexivity. }
    split; [exact Hs|].
    unfold Enhanced.candidate_of. rewrite Hs. reflexivity.
  - intros item th st t H.
    assert (Hc : PFinal.could_be_heading t (PFinal.size item) (PFinal.mean st)
                 = false).
    { unfold PFinal.could_be_heading.
      destruct H as [H | H]; apply Nat.ltb_lt in H; rewrite H;
        [reflexivity | now rewrite orb_true_r]. }
    split; [exact Hc|].
    unfold PFinal.candidate_of. fold t. rewrite Hc. reflexivity.
Qed.

Lemma disqualification_in_both_modes_witness :
  Enhanced.candidate_of Simple contact_block = []
  /\ PFinal.candidate_of (PFinal.mkThresholds 16 14 13 12)
                         (PFinal.mkStats 12 12 [12]) short_item = [].
Proof.
  destruct disqualification_in_both_modes as [Hcons Hstat].
  split.
  - apply (Hcons contact_block Simple).
    right. right. left. exists "contact:". split.
    + unfold Enhanced.never_headings. simpl. tauto.
    + vm_compute. reflexivity.
  - apply (Hstat short_item (PFinal.mkThresholds 16 14 13 12)
                 (PFinal.mkStats 12 12 [12])).
    left. vm_compute. lia.
Defined.

End ScorerFacts.

(* ================================================================== *)
(** ** The matcher decides the language of the pattern *)
(* ================================================================== *)

Module ReFacts.
Import Re.

Lemma append_empty (s1 s2 : string) :
  (s1 ++ s2)%string = EmptyString -> s1 = EmptyString /\ s2 = EmptyString.
Proof.
  destruct s1; simpl; [intros ->; split; reflexivity | discriminate].
Qed.

Lemma nullable_lang (r : re) : nullable r = true <-> lang r EmptyString.
Proof.
  split.
  - induction r as [| |p|r1 IH1 r2 IH2|r1 IH1 r2 IH2|r IH]; simpl; intros H;
      try discriminate.
    + constructor.
    + apply andb_true_iff in H. destruct H as [H1 H2].
      apply (lang_cat r1 r2 EmptyString EmptyString); auto.
    + apply orb_true_iff in H.
      destruct H as [H|H]; [apply lang_alt_l | apply lang_alt_r]; auto.
    + constructor.
  - intros H. remember EmptyString as s eqn:Es.
    induction H as [|p c Hp|r1 r2 s1 s2 H1 IH1 H2 IH2|r1 r2 s H IH|r1 r2 s H IH
                    |r|r s1 s2 H1 IH1 H2 IH2]; simpl; try reflexivity.
    + discriminate.
    + apply append_empty in Es. destruct Es as [-> ->].
      rewrite IH1, IH2; reflexivity.
    + rewrite IH; [reflexivity | exact Es].
    + rewrite IH; [apply orb_true_r | exact Es].
Qed.

Lemma lang_Emp (s : string) : ~ lang Emp s.
Proof. intros H. inversion H. Qed.

Lemma lang_Eps (s : string) : lang Eps s -> s = EmptyString.
Proof. intros H. inversion H. reflexivity. Qed.

Ltac absurd_lang :=
  match goal with
  | H : lang Emp _ |- _ => destruct (lang_Emp _ H)
  end.

Lemma mkCat_lang (r1 r2 : re) (s : string) :
  lang (mkCat r1 r2) s <-> lang (Cat r1 r2) s.
Proof.
  assert (Hl : forall r, lang Emp s <-> lang (Cat Emp r) s).
  { intros r. split; intros H; [absurd_lang|].
    inversion H; subst. absurd_lang. }
  assert (Hr : forall r, lang Emp s <-> lang (Cat r Emp) s).
  { intros r. split; intros H; [absurd_lang|].
    inversion H; subst. absurd_lang. }
  assert (He : forall r, lang r s <-> lang (Cat Eps r) s).
  { intros r. split; intros H.
    - apply (lang_cat Eps r EmptyString s); [constructor | exact H].
    - inversion H as [| |? ? s1 s2 H1 H2| | | |]; subst.
      apply lang_Eps in H1. subst. exact H2. }
  destruct r1; simpl; try apply Hl;
    destruct r2; simpl; try apply Hr; try apply He; reflexivity.
Qed.

Lemma mkAlt_lang (r1 r2 : re) (s : string) :
  lang (mkAlt r1 r2) s <-> lang (Alt r1 r2) s.
Proof.
  assert (Hl : forall r, lang r s <-> lang (Alt Emp r) s).
  { intros r. split; intros H; [apply lang_alt_r, H|].
    inversion H; subst; [absurd_lang | assumption]. }
  assert (Hr : forall r, lang r s <-> lang (Alt r Emp) s).
  { intros r. split; intros H; [apply lang_alt_l, H|].
    inversion H; subst; [assumption | absurd_lang]. }
  destruct r1; simpl; try apply Hl;
    destruct r2; simpl; try apply Hr; reflexivity.
Qed.

(** A non-empty member of a starred language starts with a non-empty
    member of the language. *)
Lemma star_cons_inv (r : re) (c : ascii) (s : string) :
  lang (Star r) (String c s) ->
  exists s1 s2, s = (s1 ++ s2)%string
                /\ lang r (String c s1) /\ lang (Star r) s2.
Proof.
  intros H. remember (Star r) as r' eqn:Er. remember (String c s) as s' eqn:Es.
  induction H as [|p c' Hp|r1 r2 s1 s2 H1 IH1 H2 IH2|r1 r2 s0 H IH|r1 r2 s0 H IH
                  |r0|r0 s1 s2 H1 IH1 H2 IH2]; try discriminate.
  injection Er as ->.
  destruct s1 as [|c1 s1]; simpl in Es.
  - apply IH2; [reflexivity | exact Es].
  - injection Es as -> <-. exists s1, s2. repeat split; assumption.
Qed.

Lemma deriv_lang (c : ascii) (r : re) :
  forall s, lang (deriv c r) s <-> lang r (String c s).
Proof.
  induction r as [| |p|r1 IH1 r2 IH2|r1 IH1 r2 IH2|r IH]; intros s; simpl.
  - split; intros H; inversion H.
  - split; intros H; inversion H.
  - destruct (p c) eqn:Ep; split; intros H.
    + apply lang_Eps in H. subst. constructor. exact Ep.
    + inversion H; subst. constructor.
    + absurd_lang.
    + inversion H; subst. congruence.
  - assert (Hcat : lang (mkCat (deriv c r1) r2) s
                   <-> exists s1 s2, s = (s1 ++ s2)%string
                                     /\ lang r1 (String c s1) /\ lang r2 s2).
    { rewrite mkCat_lang. split.
      - intros H. inversion H as [| |? ? s1 s2 H1 H2| | | |]; subst.
        exists s1, s2. split; [reflexivity|]. split; [apply IH1|]; assumption.
      - intros (s1 & s2 & -> & H1 & H2).
        constructor; [apply IH1|]; assumption. }
    assert (Hsplit : lang (Cat r1 r2) (String c s)
                     <-> (exists s1 s2, s = (s1 ++ s2)%string
                                        /\ lang r1 (String c s1) /\ lang r2 s2)
                         \/ (lang r1 EmptyString /\ lang r2 (String c s))).
    { split.
      - intros H. inversion H as [| |? ? s1 s2 H1 H2 Er Es| | | |]; subst.
        destruct s1 as [|c1 s1]; simpl in Es.
        + right. subst. split; assumption.
        + injection Es as -> <-. left. exists s1, s2. repeat split; assumption.
      - intros [(s1 & s2 & -> & H1 & H2) | [H1 H2]].
        + apply (lang_cat r1 r2 (String c s1) s2); assumption.
        + apply (lang_cat r1 r2 EmptyString (String c s)); assumption. }
    rewrite Hsplit.
    destruct (nullable r1) eqn:En.
    + rewrite mkAlt_lang. apply nullable_lang in En. split.
      * intros H. inversion H; subst;
          [left; apply Hcat; assumption | right; split; [exact En|]].
        apply IH2. assumption.
      * intros [H | [_ H]];
          [apply lang_alt_l, Hcat, H | apply lang_alt_r, IH2, H].
    + rewrite Hcat. split; [intros H; left; exact H|].
      intros [H | [H _]]; [exact H|].
      apply nullable_lang in H. congruence.
  - rewrite mkAlt_lang. split; intros H; inversion H; subst.
    + apply lang_alt_l, IH1. assumption.
    + apply lang_alt_r, IH2. assumption.
    + apply lang_alt_l, IH1. assumption.
    + apply lang_alt_r, IH2. assumption.
  - rewrite mkCat_lang. split.
    + intros H. inversion H as [| |? ? s1 s2 H1 H2| | | |]; subst.
      apply (lang_star_cons r (String c s1) s2); [apply IH|]; assumption.
    + intros H. apply star_cons_inv in H.
      destruct H as (s1 & s2 & -> & H1 & H2).
      constructor; [apply IH|]; assumption.
Qed.

(** [full] decides membership in the language. *)
Lemma full_lang (s : string) : forall r, full r s = true <-> lang r s.
Proof.
  induction s as [|c s IH]; intros r; simpl.
  - apply nullable_lang.
  - rewrite IH. apply deriv_lang.
Qed.

(** [match_prefix] succeeds exactly when a prefix of the subject is in
    the language: what [re.match] does for a pattern without [$]. *)
Lemma match_prefix_lang (s : string) :
  forall r, match_prefix r s = true
            <-> exists p q, s = (p ++ q)%string /\ lang r p.
Proof.
  induction s as [|c s IH]; intros r; simpl.
  - rewrite orb_false_r, nullable_lang. split.
    + intros H. exists EmptyString, EmptyString. split; [reflexivity | exact H].
    + intros (p & q & E & H). symmetry in E. apply append_empty in E.
      destruct E as [-> _]. exact H.
  - rewrite orb_true_iff, nullable_lang, IH. split.
    + intros [H | (p & q & -> & H)].
      * exists EmptyString, (String c s). split; [reflexivity | exact H].
      * exists (String c p), q. split; [reflexivity | apply deriv_lang, H].
    + intros (p & q & E & H). destruct p as [|c' p]; simpl in E.
      * left. exact H.
      * injection E as <- ->. right. exists p, q.
        split; [reflexivity | apply deriv_lang, H].
Qed.

End ReFacts.

(* ================================================================== *)
(** ** Subsequences and the stable sort *)
(* ================================================================== *)

Section SubseqFacts.
Context {A B : Type}.

Lemma Subseq_refl (l : list A) : Subseq l l.
Proof. induction l; constructor; assumption. Qed.

Lemma Subseq_empty (l : list A) : Subseq [] l.
Proof. induction l; constructor; assumption. Qed.

Lemma Subseq_In (k l : list A) (a : A) : Subseq k l -> In a k -> In a l.
Proof.
  induction 1 as [|x k l _ IH|x k l _ IH]; simpl; intros Hin.
  - exact Hin.
  - right. apply IH, Hin.
  - destruct Hin as [-> | Hin]; [left; reflexivity | right; apply IH, Hin].
Qed.

Lemma Subseq_firstn (n : nat) (l : list A) : Subseq (firstn n l) l.
Proof.
  revert n. induction l as [|x l IH]; intros [|n]; simpl.
  - constructor.
  - constructor.
  - apply Subseq_empty.
  - apply Subseq_keep, IH.
Qed.

Lemma Subseq_trans (j k l : list A) : Subseq j k -> Subseq k l -> Subseq j l.
Proof.
  intros Hjk Hkl. revert j Hjk.
  induction Hkl as [|x k l _ IH|x k l _ IH]; intros j Hjk.
  - exact Hjk.
  - apply Subseq_skip, IH, Hjk.
  - inversion Hjk as [|? ? ? Hj|? j0 ? Hj]; subst.
    + apply Subseq_skip, IH, Hj.
    + apply Subseq_keep, IH, Hj.
Qed.

Lemma Subseq_sorted (R : A -> A -> Prop) (k l : list A) :
  Subseq k l -> StronglySorted R l -> StronglySorted R k.
Proof.
  induction 1 as [|x k l Hs IH|x k l Hs IH]; intros Hl.
  - constructor.
  - inversion Hl; subst. apply IH. assumption.
  - inversion Hl as [|? ? Hl' Hall]; subst. constructor.
    + apply IH. assumption.
    + rewrite Forall_forall in *. intros a Ha.
      apply Hall. eapply Subseq_In; eassumption.
Qed.

Lemma Subseq_map_inv (f : A -> B) (k : list B) (l : list A) :
  Subseq k (map f l) -> exists k', Subseq k' l /\ k = map f k'.
Proof.
  revert k. induction l as [|x l IH]; intros k H; simpl in H.
  - inversion H; subst. exists []. split; constructor.
  - inversion H as [|? ? ? Hk|? k0 ? Hk]; subst.
    + destruct (IH _ Hk) as [k' [Hs ->]].
      exists k'. split; [apply Subseq_skip, Hs | reflexivity].
    + destruct (IH _ Hk) as [k' [Hs ->]].
      exists (x :: k'). split; [apply Subseq_keep, Hs | reflexivity].
Qed.

Lemma StronglySorted_map (R : B -> B -> Prop) (f : A -> B) (l : list A) :
  StronglySorted (fun a b => R (f a) (f b)) l -> StronglySorted R (map f l).
Proof.
  induction 1 as [|x l _ IH Hall]; simpl; constructor.
  - exact IH.
  - rewrite Forall_forall in *. intros b Hb.
    apply in_map_iff in Hb. destruct Hb as [a [<- Ha]]. apply Hall, Ha.
Qed.

End SubseqFacts.

Section SortMembership.
Context {A : Type}.
Variable lt : A -> A -> bool.

Lemma insert_In (x a : A) (l : list A) :
  In a (insert lt x l) <-> a = x \/ In a l.
Proof.
  induction l as [|y l IH]; simpl.
  - intuition.
  - destruct (lt y x); simpl; rewrite ?IH; intuition.
Qed.

Lemma sort_In (a : A) (l : list A) : In a (sort lt l) <-> In a l.
Proof.
  induction l as [|x l IH]; simpl.
  - reflexivity.
  - rewrite insert_In, IH. intuition.
Qed.



End SortMembership.

Section SortFacts.
Context {A : Type}.
Variable lt : A -> A -> bool.

(** The key order is a strict weak order: [lt] is asymmetric, and "not
    above" is transitive. *)
Hypothesis lt_asym : forall a b, lt a b = true -> lt b a = false.
Hypothesis le_trans :
  forall a b c, lt b a = false -> lt c b = false -> lt c a = false.

Lemma insert_sorted (x : A) (l : list A) :
  StronglySorted (not_after lt) l -> StronglySorted (not_after lt) (insert lt x l).
Proof.
  induction 1 as [|y l Hs IH Hall]; simpl.
  - constructor; constructor.
  - destruct (lt y x) eqn:E.
    + constructor; [exact IH|].
      rewrite Forall_forall in *. intros a Ha.
      apply insert_In in Ha. destruct Ha as [-> | Ha].
      * unfold not_after. apply lt_asym, E.
      * apply Hall, Ha.
    + constructor; [constructor; assumption|].
      constructor; [exact E|].
      rewrite Forall_forall in *. intros a Ha.
      unfold not_after. apply (le_trans x y a); [exact E | apply Hall, Ha].
Qed.

Lemma sort_sorted (l : list A) : StronglySorted (not_after lt) (sort lt l).
Proof.
  induction l as [|x l IH]; simpl; [constructor | apply insert_sorted, IH].
Qed.

(** *** Stability, on elements paired with their original index *)

Lemma insert_before (x : nat * A) (l : list (nat * A)) :
  StronglySorted (before lt) l ->
  Forall (fun z => (fst x < fst z)%nat) l ->
  StronglySorted (before lt) (insert (ilt lt) x l).
Proof.
  induction 1 as [|y l Hs IH Hall]; simpl; intros Hx.
  - constructor; constructor.
  - inversion Hx as [|? ? Hxy Hxl]; subst.
    unfold ilt at 1. destruct (lt (snd y) (snd x)) eqn:E.
    + constructor; [apply IH, Hxl|].
      rewrite Forall_forall in *. intros a Ha.
      apply insert_In in Ha. destruct Ha as [-> | Ha].
      * left. exact E.
      * apply Hall, Ha.
    + constructor; [constructor; assumption|].
      constructor; [right; split; assumption|].
      rewrite Forall_forall in *. intros a Ha.
      right. split; [|apply Hxl, Ha].
      apply (le_trans (snd x) (snd y) (snd a)); [exact E|].
      destruct (Hall a Ha) as [Hlt | [Hle _]];
        [apply lt_asym, Hlt | exact Hle].
Qed.

Lemma sort_before (l : list (nat * A)) :
  StronglySorted (fun p q => (fst p < fst q)%nat) l ->
  StronglySorted (before lt) (sort (ilt lt) l).
Proof.
  induction 1 as [|x l Hs IH Hall]; simpl.
  - constructor.
  - apply insert_before; [exact IH|].
    rewrite Forall_forall in *. intros z Hz.
    apply Hall. apply (sort_In) in Hz. exact Hz.
Qed.

End SortFacts.

Section IndexFacts.
Context {A : Type}.
Variable lt : A -> A -> bool.

Lemma insert_snd (x : nat * A) (l : list (nat * A)) :
  map snd (insert (ilt lt) x l) = insert lt (snd x) (map snd l).
Proof.
  induction l as [|y l IH]; simpl; [reflexivity|].
  unfold ilt at 1. destruct (lt (snd y) (snd x)); simpl; [rewrite IH|];
    reflexivity.
Qed.

Lemma sort_snd (l : list (nat * A)) :
  map snd (sort (ilt lt) l) = sort lt (map snd l).
Proof.
  induction l as [|x l IH]; simpl; [reflexivity|].
  rewrite insert_snd, IH. reflexivity.
Qed.

Lemma indexed_snd (k : nat) (l : list A) : map snd (indexed_from k l) = l.
Proof.
  revert k. induction l as [|x l IH]; intros k; simpl; [reflexivity|].
  f_equal. apply IH.
Qed.

Lemma indexed_In (d : A) (l : list A) (k : nat) (p : nat * A) :
  In p (indexed_from k l) ->
  (k <= fst p)%nat /\ (fst p - k < List.length l)%nat
  /\ nth (fst p - k) l d = snd p.
Proof.
  revert k. induction l as [|x l IH]; intros k; simpl; [intros []|].
  intros [<- | Hin]; simpl.
  - rewrite Nat.sub_diag. repeat split; lia.
  - destruct (IH (S k) Hin) as [Hle [Hlt Hnth]].
    replace (fst p - k)%nat with (S (fst p - S k)) by lia.
    repeat split; try lia. exact Hnth.
Qed.

Lemma indexed_increasing (k : nat) (l : list A) :
  StronglySorted (fun p q : nat * A => (fst p < fst q)%nat) (indexed_from k l).
Proof.
  revert k. induction l as [|x l IH]; intros k; simpl; constructor.
  - apply IH.
  - rewrite Forall_forall. intros p Hp.
    destruct (indexed_In x l (S k) p Hp) as [Hle _]. simpl. lia.
Qed.

End IndexFacts.

(* ================================================================== *)
(** ** The size profile *)
(* ================================================================== *)

Module ThresholdFacts.
Import PFinal Samples.

Lemma distinct_In (q : Q) (l : list Q) : In q (distinct l) -> In q l.
Proof.
  induction l as [|a l IH]; simpl; [tauto|].
  destruct (existsb (Qeq_bool a) l); simpl; intuition.
Qed.

Lemma distinct_covers (q : Q) (l : list Q) :
  In q l -> exists q', In q' (distinct l) /\ q == q'.
Proof.
  revert q. induction l as [|a l IH]; intros q; simpl; [tauto|].
  intros [-> | Hin].
  - destruct (existsb (Qeq_bool q) l) eqn:E.
    + apply existsb_exists in E. destruct E as [z [Hz Hqz]].
      apply Qeq_bool_iff in Hqz.
      destruct (IH z Hz) as [q' [Hq' Hzq']].
      exists q'. split; [exact Hq' | now rewrite Hqz].
    + exists q. split; [left; reflexivity | reflexivity].
  - destruct (IH q Hin) as [q' [Hq' Hqq']].
    exists q'. split; [|exact Hqq'].
    destruct (existsb (Qeq_bool a) l); [exact Hq' | right; exact Hq'].
Qed.

Lemma insert_desc (x : Q) (l : list Q) :
  StronglySorted (fun a b => b < a) l ->
  Forall (fun z => ~ x == z) l ->
  StronglySorted (fun a b => b < a) (insert desc_lt x l).
Proof.
  induction 1 as [|y l Hs IH Hall]; simpl; intros Hx.
  - constructor; constructor.
  - inversion Hx as [|? ? Hxy Hxl]; subst.
    unfold desc_lt at 1. destruct (Qltb x y) eqn:E.
    + apply Qltb_true in E. constructor; [apply IH, Hxl|].
      rewrite Forall_forall in *. intros a Ha.
      apply insert_In in Ha. destruct Ha as [-> | Ha]; [exact E | apply Hall, Ha].
    + apply Qltb_false in E.
      assert (Hyx : y < x).
      { destruct (Qle_lt_or_eq _ _ E) as [Hlt | Heq]; [exact Hlt|].
        exfalso. apply Hxy. symmetry. exact Heq. }
      constructor; [constructor; assumption|].
      constructor; [exact Hyx|].
      rewrite Forall_forall in *. intros a Ha.
      apply Qlt_trans with y; [apply Hall, Ha | exact Hyx].
Qed.

Lemma sorted_set_desc_sorted (l : list Q) :
  StronglySorted (fun a b => b < a) (sorted_set_desc l).
Proof.
  unfold sorted_set_desc. fold desc_lt.
  induction l as [|a l IH]; simpl; [constructor|].
  destruct (existsb (Qeq_bool a) l) eqn:E; [exact IH|].
  simpl. apply insert_desc; [exact IH|].
  rewrite Forall_forall. intros z Hz Haz.
  apply sort_In, distinct_In in Hz.
  assert (E' : existsb (Qeq_bool a) l = true).
  { apply existsb_exists. exists z. split; [exact Hz|].
    apply Qeq_bool_iff, Haz. }
  congruence.
Qed.

Lemma sorted_set_desc_In (q : Q) (l : list Q) :
  In q (sorted_set_desc l) -> In q l.
Proof.
  unfold sorted_set_desc. intros H. apply sort_In in H.
  apply distinct_In, H.
Qed.

Lemma sorted_set_desc_covers (q : Q) (l : list Q) :
  In q l -> exists q', In q' (sorted_set_desc l) /\ q == q'.
Proof.
  intros H. destruct (distinct_covers q l H) as [q' [Hq' Hqq']].
  exists q'. split; [|exact Hqq'].
  unfold sorted_set_desc. apply sort_In, Hq'.
Qed.

(** C7: when some item has a positive size, the sizes of the profile are
    the positive sizes of the items, each value once, from the largest
    down, and the mean is their mean, as a float: their exact sum over
    their number, rounded to the nearest float.  The body threshold is the
    mean.  With at least four sizes, h1, h2 and h3 are the largest, the
    second and the third largest; with two or three, h1 and h2 are the
    largest and the second largest and h3 is the float sum of the mean and
    1; with one, h1, h2 and h3 are the float sums of the mean and 4, 2
    and 1. *)
Theorem heading_thresholds_by_tier (text_items : list Item) :
  positive_sizes text_items <> [] ->
  let szs := positive_sizes text_items in
  let stats := size_stats_of szs in
  let th := calculate_heading_thresholds stats in
  StronglySorted (fun a b => b < a) (sizes stats)
  /\ (forall q, In q (sizes stats) -> In q szs)
  /\ (forall q, In q szs -> exists q', In q' (sizes stats) /\ q == q')
  /\ mean stats
     = Binary64.fl (fold_right Qplus 0 szs / Qnat (List.length szs))
  /\ body th = mean stats
  /\ (forall s1 s2 s3 s4 rest,
         sizes stats = s1 :: s2 :: s3 :: s4 :: rest ->
         h1 th = s1 /\ h2 th = s2 /\ h3 th = s3)
  /\ (forall s1 s2 rest,
         sizes stats = s1 :: s2 :: rest -> (List.length rest < 2)%nat ->
         h1 th = s1 /\ h2 th = s2 /\ h3 th = Binary64.fadd (mean stats) 1)
  /\ (forall s1,
         sizes stats = [s1] ->
         h1 th = Binary64.fadd (mean stats) 4
         /\ h2 th = Binary64.fadd (mean stats) 2
         /\ h3 th = Binary64.fadd (mean stats) 1)
  /\ sizes stats <> [].
Proof.
  intros Hne szs stats th.
  split; [apply sorted_set_desc_sorted|].
  split; [intros q; apply sorted_set_desc_In|].
  split; [intros q; apply sorted_set_desc_covers|].
  split; [reflexivity|].
  split.
  { unfold th, calculate_heading_thresholds.
    destruct (4 <=? List.length (sizes stats))%nat; [reflexivity|].
    destruct (2 <=? List.length (sizes stats))%nat; reflexivity. }
  split.
  { intros s1 s2 s3 s4 rest E.
    unfold th, calculate_heading_thresholds. rewrite E. simpl.
    repeat split; reflexivity. }
  split.
  { intros s1 s2 rest E Hlen.
    unfold th, calculate_heading_thresholds. rewrite E.
    destruct rest as [|s3 [|s4 rest]]; simpl in Hlen; try lia;
      simpl; repeat split; reflexivity. }
  split.
  { intros s1 E.
    unfold th, calculate_heading_thresholds. rewrite E. simpl.
    repeat split; reflexivity. }
  intros E.
  change (sizes stats) with (sorted_set_desc (positive_sizes text_items)) in E.
  destruct (positive_sizes text_items) as [|q szs'];
    [apply Hne; reflexivity|].
  destruct (sorted_set_desc_covers q (q :: szs')) as [q' [Hq' _]];
    [left; reflexivity|].
  rewrite E in Hq'. exact Hq'.
Qed.

Lemma heading_thresholds_by_tier_witness :
  let stats := size_stats_of (positive_sizes caption_doc) in
  let th := calculate_heading_thresholds stats in
  sizes stats = [16; 12; 8]
  /\ h1 th = 16 /\ h2 th = 12 /\ h3 th = Binary64.fadd (mean stats) 1.
Proof.
  intros stats th.
  assert (Hne : positive_sizes caption_doc <> []) by (vm_compute; discriminate).
  destruct (heading_thresholds_by_tier caption_doc Hne)
    as (_ & _ & _ & _ & _ & _ & Htier & _).
  split; [vm_compute; reflexivity|].
  apply (Htier 16 12 [8]); [vm_compute; reflexivity | simpl; lia].
Defined.

End ThresholdFacts.

(* ================================================================== *)
(** ** The sort keys are strict weak orders *)
(* ================================================================== *)

Section KeyOrders.
Import PyStr.

Lemma str_compare_ge_trans (a b c : string) :
  String.compare a b <> Lt -> String.compare b c <> Lt ->
  String.compare a c <> Lt.
Proof.
  revert b c. induction a as [|x a IH]; intros [|y b] [|z c]; simpl;
    try congruence.
  unfold Ascii.compare.
  destruct (N.compare_spec (N_of_ascii x) (N_of_ascii y)) as [Exy|Exy|Exy];
    destruct (N.compare_spec (N_of_ascii y) (N_of_ascii z)) as [Eyz|Eyz|Eyz];
    destruct (N.compare_spec (N_of_ascii x) (N_of_ascii z)) as [Exz|Exz|Exz];
    try congruence; try lia.
  apply IH.
Qed.

Lemma str_ltb_asym (a b : string) : str_ltb a b = true -> str_ltb b a = false.
Proof.
  unfold str_ltb, String.ltb. rewrite (String.compare_antisym b a).
  destruct (String.compare a b); simpl; congruence.
Qed.

Lemma str_le_trans (a b c : string) :
  str_ltb b a = false -> str_ltb c b = false -> str_ltb c a = false.
Proof.
  unfold str_ltb, String.ltb. intros Hba Hcb.
  assert (H : String.compare c a <> Lt).
  { apply (str_compare_ge_trans c b a).
    - destruct (String.compare c b); congruence.
    - destruct (String.compare b a); congruence. }
  destruct (String.compare c a); congruence.
Qed.

Lemma enhanced_key_lt_asym (a b : Enhanced.Heading) :
  Enhanced.key_lt a b = true -> Enhanced.key_lt b a = false.
Proof.
  unfold Enhanced.key_lt.
  destruct (Z.eqb_spec (Enhanced.h_page a) (Enhanced.h_page b)) as [E|E];
    destruct (Z.eqb_spec (Enhanced.h_page b) (Enhanced.h_page a)) as [E'|E'];
    try congruence.
  - apply str_ltb_asym.
  - intros H. apply Z.ltb_lt in H. apply Z.ltb_ge. lia.
Qed.

Lemma enhanced_key_le_trans (a b c : Enhanced.Heading) :
  Enhanced.key_lt b a = false -> Enhanced.key_lt c b = false ->
  Enhanced.key_lt c a = false.
Proof.
  unfold Enhanced.key_lt.
  destruct (Z.eqb_spec (Enhanced.h_page b) (Enhanced.h_page a)) as [E1|E1];
    destruct (Z.eqb_spec (Enhanced.h_page c) (Enhanced.h_page b)) as [E2|E2];
    destruct (Z.eqb_spec (Enhanced.h_page c) (Enhanced.h_page a)) as [E3|E3];
    rewrite ?Z.ltb_ge; try lia.
  apply str_le_trans.
Qed.

Lemma statistical_key_lt_true (a b : PFinal.Heading) :
  PFinal.key_lt a b = true <->
  (PFinal.h_page a < PFinal.h_page b)%Z
  \/ (PFinal.h_page a = PFinal.h_page b /\ PFinal.h_y a < PFinal.h_y b).
Proof.
  unfold PFinal.key_lt.
  destruct (Z.eqb_spec (PFinal.h_page a) (PFinal.h_page b)) as [E|E].
  - rewrite Qltb_true. intuition lia.
  - rewrite Z.ltb_lt. intuition lia.
Qed.

Lemma statistical_key_lt_false (a b : PFinal.Heading) :
  PFinal.key_lt a b = false <->
  (PFinal.h_page b < PFinal.h_page a)%Z
  \/ (PFinal.h_page a = PFinal.h_page b /\ PFinal.h_y b <= PFinal.h_y a).
Proof.
  unfold PFinal.key_lt.
  destruct (Z.eqb_spec (PFinal.h_page a) (PFinal.h_page b)) as [E|E].
  - rewrite Qltb_false. intuition lia.
  - rewrite Z.ltb_ge. intuition lia.
Qed.

Lemma statistical_key_lt_asym (a b : PFinal.Heading) :
  PFinal.key_lt a b = true -> PFinal.key_lt b a = false.
Proof.
  rewrite statistical_key_lt_true, statistical_key_lt_false.
  intros [H | [H1 H2]]; [left; exact H | right].
  split; [congruence | apply Qlt_le_weak, H2].
Qed.

Lemma statistical_key_le_trans (a b c : PFinal.Heading) :
  PFinal.key_lt b a = false -> PFinal.key_lt c b = false ->
  PFinal.key_lt c a = false.
Proof.
  rewrite !statistical_key_lt_false.
  intros [H1 | [H1 H1']] [H2 | [H2 H2']]; try (left; lia).
  right. split; [congruence|]. apply Qle_trans with (PFinal.h_y b); assumption.
Qed.

End KeyOrders.

(* ================================================================== *)
(** ** The outline assembler *)
(* ================================================================== *)

Module AssemblerFacts.
Import PyStr Assembler Samples.

Lemma StronglySorted_weaken {A : Type} (R R' : A -> A -> Prop) (l : list A) :
  (forall a b, In a l -> In b l -> R a b -> R' a b) ->
  StronglySorted R l -> StronglySorted R' l.
Proof.
  intros Himp Hs. induction Hs as [|x l Hs IH Hall]; constructor.
  - apply IH. intros a b Ha Hb. apply Himp; right; assumption.
  - rewrite Forall_forall in *. intros b Hb.
    apply Himp; [left; reflexivity | right; exact Hb | apply Hall, Hb].
Qed.

(** *** The loop of the statistical extractor *)

Lemma filter_loop_app (l1 l2 : list PFinal.Heading) :
  forall seen acc,
    PFinal.filter_loop seen acc (l1 ++ l2)
    = PFinal.filter_loop (fst (PFinal.filter_loop seen acc l1))
                         (snd (PFinal.filter_loop seen acc l1)) l2.
Proof.
  induction l1 as [|h l1 IH]; intros seen acc; simpl; [reflexivity|].
  destruct (PFinal.is_dropped seen h); apply IH.
Qed.

Lemma filter_loop_seen (l : list PFinal.Heading) :
  forall seen acc,
    seen = seen_of acc ->
    fst (PFinal.filter_loop seen acc l)
    = seen_of (snd (PFinal.filter_loop seen acc l)).
Proof.
  induction l as [|h l IH]; intros seen acc E; simpl; [exact E|].
  destruct (PFinal.is_dropped seen h); apply IH; [exact E|].
  subst seen. unfold seen_of. rewrite map_app. reflexivity.
Qed.

Lemma filter_loop_subseq (l : list PFinal.Heading) :
  forall seen acc,
  exists kept,
    Subseq kept l
    /\ snd (PFinal.filter_loop seen acc l) = acc ++ map PFinal.project kept.
Proof.
  induction l as [|h l IH]; intros seen acc; simpl.
  - exists []. split; [constructor | rewrite app_nil_r; reflexivity].
  - destruct (PFinal.is_dropped seen h).
    + destruct (IH seen acc) as [kept [Hs E]].
      exists kept. split; [apply Subseq_skip, Hs | exact E].
    + destruct (IH (seen ++ [PFinal.normalize (PFinal.h_text h)])
                   (acc ++ [PFinal.project h])) as [kept [Hs E]].
      exists (h :: kept). split; [apply Subseq_keep, Hs|].
      rewrite E, <- app_assoc. reflexivity.
Qed.

Lemma is_dropped_iff (seen : list string) (h : PFinal.Heading) :
  PFinal.is_dropped seen h = true
  <-> drop_condition seen (PFinal.normalize (PFinal.h_text h)).
Proof.
  unfold PFinal.is_dropped, drop_condition.
  set (t := PFinal.normalize (PFinal.h_text h)).
  destruct (existsb (String.eqb t) seen) eqn:E.
  - split; [intros _; left | reflexivity].
    apply existsb_exists in E. destruct E as [s [Hs Heq]].
    apply String.eqb_eq in Heq. subst s. exact Hs.
  - rewrite existsb_exists. split.
    + intros [s [Hs Hc]]. apply andb_true_iff in Hc. destruct Hc as [Hc Hlen].
      right. split; [apply Nat.ltb_lt, Hlen|].
      exists s. split; [exact Hs | apply orb_true_iff, Hc].
    + intros [Hin | [Hlen [s [Hs Hc]]]].
      * exfalso.
        assert (E' : existsb (String.eqb t) seen = true).
        { apply existsb_exists. exists t. split; [exact Hin|].
          apply String.eqb_refl. }
        congruence.
      * exists s. split; [exact Hs|].
        apply andb_true_iff. split; [apply orb_true_iff, Hc|].
        apply Nat.ltb_lt, Hlen.
Qed.

Lemma filter_loop_last (pre : list PFinal.Heading) (h : PFinal.Heading) :
  snd (PFinal.filter_loop [] [] (pre ++ [h]))
  = if PFinal.is_dropped (seen_of (snd (PFinal.filter_loop [] [] pre))) h
    then snd (PFinal.filter_loop [] [] pre)
    else snd (PFinal.filter_loop [] [] pre) ++ [PFinal.project h].
Proof.
  rewrite filter_loop_app. simpl.
  rewrite (filter_loop_seen pre [] [] eq_refl).
  destruct (PFinal.is_dropped _ h); reflexivity.
Qed.

Lemma post_process_unfold (headings : list PFinal.Heading) :
  PFinal.post_process_headings_advanced headings
  = firstn 50 (snd (PFinal.filter_loop [] [] (sort PFinal.key_lt headings))).
Proof.
  destruct headings; reflexivity.
Qed.

(** C5, as the specification has it, fails in both directions.  A short
    candidate that is part of a seen entry of more than 10 characters is
    kept; a long candidate that contains a seen entry of 5 characters is
    dropped. *)
Lemma length_test_is_on_the_candidate :
  PFinal.post_process_headings_advanced [long_heading; short_heading]
  = [PFinal.project long_heading; PFinal.project short_heading]
  /\ contains (PFinal.normalize "Intro") (PFinal.normalize "Introduction to x")
     = true
  /\ String.length (PFinal.normalize "Introduction to x") = 17%nat
  /\ PFinal.post_process_headings_advanced
       [PFinal.mkHeading H2 "Intro" 1 14 3 10;
        PFinal.mkHeading H2 "Introduction to x" 1 14 3 20]
     = [mkEntry H2 "Intro" 1]
  /\ String.length (PFinal.normalize "Intro") = 5%nat.
Proof.
  repeat split; vm_compute; reflexivity.
Qed.

(** C5, amended: in the loop over the sorted candidates, a candidate is
    dropped when its normalized text (lowercased, stripped, blanks
    collapsed) is the normalized text of a kept entry, or has more than
    10 characters and is part of, or contains, the normalized text of a
    kept entry; otherwise it is kept, after the entries kept before it.
    The outline is the first 50 kept entries. *)
Theorem duplicate_suppression
    (headings pre post : list PFinal.Heading) (h : PFinal.Heading) :
  sort PFinal.key_lt headings = pre ++ h :: post ->
  let kept := snd (PFinal.filter_loop [] [] pre) in
  let t := PFinal.normalize (PFinal.h_text h) in
  (drop_condition (seen_of kept) t ->
   snd (PFinal.filter_loop [] [] (pre ++ [h])) = kept)
  /\ (~ drop_condition (seen_of kept) t ->
      snd (PFinal.filter_loop [] [] (pre ++ [h])) = kept ++ [PFinal.project h])
  /\ PFinal.post_process_headings_advanced headings
     = firstn 50 (snd (PFinal.filter_loop [] [] (pre ++ h :: post)))
  /\ (List.length (PFinal.post_process_headings_advanced headings) <= 50)%nat.
Proof.
  intros Hsort kept t.
  split; [|split; [|split]].
  - intros Hd. rewrite filter_loop_last.
    apply is_dropped_iff in Hd. fold kept. rewrite Hd. reflexivity.
  - intros Hd. rewrite filter_loop_last. fold kept.
    destruct (PFinal.is_dropped (seen_of kept) h) eqn:E; [|reflexivity].
    exfalso. apply Hd. apply is_dropped_iff. exact E.
  - rewrite post_process_unfold, Hsort. reflexivity.
  - rewrite post_process_unfold. apply firstn_le_length.
Qed.

Lemma duplicate_suppression_witness :
  snd (PFinal.filter_loop [] [] [appendix_p2; appendix_p5])
  = [PFinal.project appendix_p2]
  /\ PFinal.post_process_headings_advanced [appendix_p5; appendix_p2]
     = [PFinal.project appendix_p2].
Proof.
  destruct (duplicate_suppression [appendix_p5; appendix_p2]
              [appendix_p2] [] appendix_p5)
    as (Hdrop & _ & Hout & _); [vm_compute; reflexivity|].
  split.
  - apply Hdrop. left. vm_compute. left. reflexivity.
  - rewrite Hout. vm_compute. reflexivity.
Defined.

(** *** Where an outline entry comes from *)

Lemma firstn_In {A : Type} (n : nat) (l : list A) (a : A) :
  In a (firstn n l) -> In a l.
Proof. apply Subseq_In, Subseq_firstn. Qed.

Lemma post_process_In (cands : list PFinal.Heading) (e : Entry) :
  In e (PFinal.post_process_headings_advanced cands) ->
  exists h, In h cands /\ e = PFinal.project h.
Proof.
  rewrite post_process_unfold. intros H. apply firstn_In in H.
  destruct (filter_loop_subseq (sort PFinal.key_lt cands) [] [])
    as [kept [Hs E]].
  rewrite E in H. simpl in H. apply in_map_iff in H.
  destruct H as [h [<- Hh]]. exists h. split; [|reflexivity].
  apply (sort_In PFinal.key_lt). eapply Subseq_In; eassumption.
Qed.

Lemma candidate_of_origin (th : PFinal.Thresholds) (st : PFinal.SizeStats)
    (item : PFinal.Item) (h : PFinal.Heading) :
  In h (PFinal.candidate_of th st item) ->
  PFinal.h_text h = strip (PFinal.text item)
  /\ PFinal.h_page h = PFinal.page item
  /\ Binary64.fsub (PFinal.mean st) 1 <= PFinal.size item.
Proof.
  unfold PFinal.candidate_of.
  destruct (PFinal.could_be_heading (strip (PFinal.text item))
              (PFinal.size item) (PFinal.mean st)) eqn:E; simpl; [|tauto].
  destruct (Qltb 2 _); simpl; [|tauto].
  intros [<- | []]. simpl. repeat split.
  unfold PFinal.could_be_heading in E.
  destruct ((String.length (strip (PFinal.text item)) <? 3)%nat
            || (200 <? String.length (strip (PFinal.text item)))%nat);
    [discriminate|].
  destruct (Qltb (PFinal.size item) (Binary64.fsub (PFinal.mean st) 1)) eqn:E2;
    [discriminate|].
  apply Qltb_false, E2.
Qed.

(** C10: in the statistical extractor, an item whose size is below the
    mean of the positive sizes minus 1, the float difference of the float
    mean and 1 as the pre-filter computes it, is rejected by the
    pre-filter, whatever text it is asked about, and contributes no
    candidate, whatever its boldness and position; and every entry of the
    outline has the stripped text and the page of an item whose size is
    not below that difference. *)
Theorem small_size_never_in_outline (text_items : list PFinal.Item) :
  let stats := PFinal.size_stats_of (PFinal.positive_sizes text_items) in
  let th := PFinal.calculate_heading_thresholds stats in
  (forall (item : PFinal.Item) (t : string),
      PFinal.size item < Binary64.fsub (PFinal.mean stats) 1 ->
      PFinal.could_be_heading t (PFinal.size item) (PFinal.mean stats) = false
      /\ PFinal.candidate_of th stats item = [])
  /\ (forall e : Entry,
      In e (PFinal.classify_headings_advanced text_items) ->
      exists item,
        In item text_items
        /\ e_text e = strip (PFinal.text item)
        /\ e_page e = PFinal.page item
        /\ ~ PFinal.size item < Binary64.fsub (PFinal.mean stats) 1).
Proof.
  intros stats th. split.
  - intros item t Hlt. apply Qltb_true in Hlt.
    assert (Hc : forall t', PFinal.could_be_heading t' (PFinal.size item)
                              (PFinal.mean stats) = false).
    { intros t'. unfold PFinal.could_be_heading. rewrite Hlt.
      destruct ((String.length t' <? 3)%nat || (200 <? String.length t')%nat);
        reflexivity. }
    split; [apply Hc|].
    unfold PFinal.candidate_of. rewrite Hc. reflexivity.
  - intros e He. unfold PFinal.classify_headings_advanced in He.
    destruct text_items as [|i0 items]; [destruct He|].
    destruct (PFinal.positive_sizes (i0 :: items)) eqn:Ep; [destruct He|].
    apply post_process_In in He. destruct He as [h [Hh ->]].
    unfold PFinal.potential_headings in Hh. rewrite Ep in Hh.
    apply in_flat_map in Hh. destruct Hh as [item [Hitem Hh]].
    apply candidate_of_origin in Hh. destruct Hh as (Ht & Hp & Hsz).
    exists item. split; [exact Hitem|]. simpl.
    split; [exact Ht|]. split; [exact Hp|].
    intros Hlt. exact (Qlt_not_le _ _ Hlt Hsz).
Qed.

Lemma small_size_never_in_outline_witness :
  PFinal.could_be_heading "SMALL CAPTION" 8
    (PFinal.mean (PFinal.size_stats_of (PFinal.positive_sizes caption_doc)))
  = false
  /\ PFinal.classify_headings_advanced caption_doc
     = [mkEntry H1 "SUMMARY OF RESULTS" 1].
Proof.
  destruct (small_size_never_in_outline caption_doc) as [Hsmall _].
  split.
  - apply (Hsmall (PFinal.mkItem "SMALL CAPTION" 1 0 90 8 true) "SMALL CAPTION").
    vm_compute. reflexivity.
  - vm_compute. reflexivity.
Defined.

End AssemblerFacts.

(* ================================================================== *)
(** ** The order of the outline *)
(* ================================================================== *)

Module OrderFacts.
Import PyStr Assembler Samples.

Lemma remove_duplicates_subseq (hs : list Enhanced.Heading) :
  exists kept, Subseq kept hs /\ Enhanced.remove_duplicates hs = kept.
Proof.
  unfold Enhanced.remove_duplicates.
  enough (H : forall acc, exists kept,
               Subseq kept hs
               /\ fold_left
                    (fun final_headings heading =>
                       if negb (existsb
                                  (fun h => String.eqb (Enhanced.h_text h)
                                                       (Enhanced.h_text heading))
                                  final_headings)
                       then final_headings ++ [heading]
                       else final_headings)
                    hs acc = acc ++ kept).
  { destruct (H []) as [kept [Hs E]]. exists kept. split; assumption. }
  induction hs as [|h hs IH]; intros acc; simpl.
  - exists []. split; [constructor | rewrite app_nil_r; reflexivity].
  - destruct (negb (existsb _ acc)).
    + destruct (IH (acc ++ [h])) as [kept [Hs E]].
      exists (h :: kept). split; [apply Subseq_keep, Hs|].
      rewrite E, <- app_assoc. reflexivity.
    + destruct (IH acc) as [kept [Hs E]].
      exists kept. split; [apply Subseq_skip, Hs | exact E].
Qed.

Lemma conservative_outline_sorted (blocks : list Enhanced.Block) :
  StronglySorted page_text_le (outline (Enhanced.extract_outline blocks)).
Proof.
  unfold Enhanced.extract_outline.
  destruct blocks as [|b blocks]; [constructor|].
  cbv zeta.
  destruct (negb (Enhanced.should_extract_headings _ _)); [constructor|].
  cbn [outline].
  destruct (remove_duplicates_subseq
              (sort Enhanced.key_lt
                 (Enhanced.potential_headings (b :: blocks)
                    (Enhanced.detect_document_type (b :: blocks)))))
    as [kept [Hs ->]].
  apply StronglySorted_map.
  apply (Subseq_sorted _ _ _ Hs).
  eapply AssemblerFacts.StronglySorted_weaken;
    [|apply (sort_sorted Enhanced.key_lt enhanced_key_lt_asym
               enhanced_key_le_trans)].
  intros x z _ _ H. unfold not_after, Enhanced.key_lt in H.
  unfold page_text_le, Enhanced.format. simpl.
  destruct (Z.eqb_spec (Enhanced.h_page z) (Enhanced.h_page x)) as [E|E].
  - right. split; [congruence | exact H].
  - left. apply Z.ltb_ge in H. lia.
Qed.

Lemma post_process_indices (cands : list PFinal.Heading) (d : PFinal.Heading) :
  exists idxs : list nat,
    PFinal.post_process_headings_advanced cands
    = map (fun i => PFinal.project (nth i cands d)) idxs
    /\ Forall (fun i => (i < List.length cands)%nat) idxs
    /\ StronglySorted (precedes cands d) idxs.
Proof.
  rewrite AssemblerFacts.post_process_unfold.
  set (il := indexed_from 0 cands).
  assert (Hsnd : sort PFinal.key_lt cands
                 = map snd (sort (ilt PFinal.key_lt) il)).
  { rewrite sort_snd. unfold il. rewrite indexed_snd. reflexivity. }
  destruct (AssemblerFacts.filter_loop_subseq (sort PFinal.key_lt cands) [] [])
    as [kept [Hs E]].
  rewrite E, app_nil_l, firstn_map.
  assert (Hs' : Subseq (firstn 50 kept) (map snd (sort (ilt PFinal.key_lt) il))).
  { rewrite <- Hsnd. eapply Subseq_trans; [apply Subseq_firstn | exact Hs]. }
  apply Subseq_map_inv in Hs'. destruct Hs' as [k' [Hk' Ek]].
  assert (Hin : forall p, In p k' ->
                  (fst p < List.length cands)%nat
                  /\ nth (fst p) cands d = snd p).
  { intros p Hp.
    assert (Hp' : In p il).
    { apply (sort_In (ilt PFinal.key_lt)). eapply Subseq_In; eassumption. }
    destruct (indexed_In d cands 0 p Hp') as (_ & Hlt & Hnth).
    rewrite Nat.sub_0_r in Hlt, Hnth. split; assumption. }
  exists (map fst k'). rewrite Ek, !map_map. split; [|split].
  - apply map_ext_in. intros p Hp.
    destruct (Hin p Hp) as [_ ->]. reflexivity.
  - rewrite Forall_forall. intros i Hi.
    apply in_map_iff in Hi. destruct Hi as [p [<- Hp]].
    apply (Hin p Hp).
  - apply StronglySorted_map.
    eapply AssemblerFacts.StronglySorted_weaken;
      [|apply (Subseq_sorted _ _ _ Hk');
        apply (sort_before PFinal.key_lt statistical_key_lt_asym
                 statistical_key_le_trans);
        apply indexed_increasing].
    intros p q Hp Hq Hb. unfold precedes.
    destruct (Hin p Hp) as [_ ->]. destruct (Hin q Hq) as [_ ->].
    destruct Hb as [Hlt | [Hle Hidx]].
    + apply statistical_key_lt_true in Hlt.
      destruct Hlt as [Hlt | [Hpg Hy]]; [left; exact Hlt | right].
      split; [exact Hpg | left; exact Hy].
    + apply statistical_key_lt_false in Hle.
      destruct Hle as [Hlt | [Hpg Hy]]; [left; exact Hlt | right].
      split; [congruence|].
      destruct (Qle_lt_or_eq _ _ Hy) as [Hy' | Hy'];
        [left; exact Hy' | right; split; assumption].
Qed.

(** C6, as the specification has it, fails on the conservative
    extractor: of two headings of page 1, the one printed lower comes
    first in the outline, because its text is the smaller one. *)
Lemma conservative_outline_ignores_position :
  outline (Enhanced.extract_outline swapped_sections)
  = [mkEntry H1 "1. Introduction" 1; mkEntry H1 "2. Results" 1]
  /\ map (fun b => (Enhanced.text b, Enhanced.page b, Enhanced.pos_y b))
         (firstn 2 swapped_sections)
     = [("2. Results", 1%Z, 100); ("1. Introduction", 1%Z, 200)]
  /\ List.length swapped_sections = 16%nat.
Proof.
  repeat split; vm_compute; reflexivity.
Qed.

(** C6, amended: the outline of the statistical extractor lists
    candidates by page, then by vertical position, then by their place
    among the candidates: it is the projection of the candidates at a
    list of indices that is strictly increasing in that order.  The
    outline of the conservative extractor is ordered by page and, within
    a page, by text. *)
Theorem outline_order :
  (forall (text_items : list PFinal.Item) (d : PFinal.Heading),
      let cands := PFinal.potential_headings text_items in
      exists idxs : list nat,
        PFinal.classify_headings_advanced text_items
        = map (fun i => PFinal.project (nth i cands d)) idxs
        /\ Forall (fun i => (i < List.length cands)%nat) idxs
        /\ StronglySorted (precedes cands d) idxs)
  /\ (forall blocks : list Enhanced.Block,
      StronglySorted page_text_le (outline (Enhanced.extract_outline blocks))).
Proof.
  split.
  - intros text_items d cands.
    unfold PFinal.classify_headings_advanced.
    destruct text_items as [|i0 items].
    { exists []. repeat split; constructor. }
    destruct (PFinal.positive_sizes (i0 :: items)) eqn:Ep.
    { exists []. repeat split; constructor. }
    apply post_process_indices.
  - apply conservative_outline_sorted.
Qed.

End OrderFacts.

(* ================================================================== *)
(** ** The embedding on sample inputs *)
(* ================================================================== *)

Module Scenarios.
Import PyStr Re Samples.

Example strip_and_lower :
  strip "  Table of  Contents " = "Table of  Contents"
  /\ lower "RSVP: June 1" = "rsvp: june 1"
  /\ PFinal.normalize "  Appendix A:   Data " = "appendix a: data".
Proof. repeat split; reflexivity. Qed.

Example numbered_section_patterns :
  match_end Enhanced.h1_definite "1. Introduction" = true
  /\ match_end Enhanced.h1_definite "1.Introduction" = false
  /\ match_end Enhanced.h1_definite "1.2 Scope of work" = false
  /\ match_end Enhanced.h2_definite "1.2 Scope of work" = true
  /\ match_end Enhanced.h1_special "table of contents" = true
  /\ match_end Enhanced.h1_special "Appendix AB" = false.
Proof. repeat split; vm_compute; reflexivity. Qed.

Example statistical_patterns :
  PFinal.matches_heading_pattern "Chapter IV" = true
  /\ PFinal.matches_heading_pattern "2.1 Scope" = true
  /\ PFinal.matches_heading_pattern "Timeline:" = true
  /\ PFinal.matches_heading_pattern "Summary of findings" = false
  /\ PFinal.matches_heading_pattern "what comes next" = false.
Proof. repeat split; vm_compute; reflexivity. Qed.

(** A numbered section amid body text is the only outline entry of the
    conservative extractor. *)
Example numbered_report_outline :
  List.length numbered_report = 22%nat
  /\ Enhanced.detect_document_type numbered_report = StandardDocument
  /\ outline (Enhanced.extract_outline numbered_report)
     = [mkEntry H1 "1. Introduction" 1].
Proof. repeat split; vm_compute; reflexivity. Qed.

(** An invitation is classified as such and has no outline. *)
Example invitation_card_outline :
  Enhanced.detect_document_type invitation_card = Invitation
  /\ outline (Enhanced.extract_outline invitation_card) = [].
Proof. repeat split; vm_compute; reflexivity. Qed.

(** Of a heading printed on pages 2 and 5, the first occurrence stays. *)
Example repeated_heading_outline :
  PFinal.post_process_headings_advanced [appendix_p2; appendix_p5]
  = [mkEntry H2 "Appendix A: Data" 2].
Proof. vm_compute. reflexivity. Qed.

End Scenarios.

(* ================================================================== *)
(** ** Stripping and collapsing blanks *)
(* ================================================================== *)

Module StringFacts.
Import PyStr.

Lemma length_pos (s : string) : s <> EmptyString <-> (1 <= String.length s)%nat.
Proof.
  destruct s; simpl; split; intros H; try congruence; try lia.
Qed.

Lemma lstrip_empty (s : string) : lstrip s = EmptyString <-> has_ink s = false.
Proof.
  unfold has_ink. induction s as [|c s IH]; simpl; [tauto|].
  destruct (is_space c); simpl; [exact IH|].
  split; discriminate.
Qed.

Lemma rstrip_empty (s : string) : rstrip s = EmptyString <-> has_ink s = false.
Proof.
  unfold has_ink. induction s as [|c s IH]; simpl; [tauto|].
  destruct (rstrip s) eqn:Er.
  - destruct (is_space c); simpl.
    + split; [intros _; apply IH; reflexivity | reflexivity].
    + split; discriminate.
  - split; [discriminate|]. intros H.
    apply orb_false_iff in H. destruct H as [_ H].
    apply IH in H. discriminate.
Qed.

Lemma has_ink_lstrip (s : string) : has_ink (lstrip s) = has_ink s.
Proof.
  unfold has_ink. induction s as [|c s IH]; simpl; [reflexivity|].
  destruct (is_space c) eqn:Ec; simpl; [exact IH|].
  rewrite Ec. reflexivity.
Qed.

Lemma has_ink_rstrip (s : string) : has_ink (rstrip s) = has_ink s.
Proof.
  induction s as [|c s IH]; simpl; [reflexivity|].
  destruct (rstrip s) eqn:Er.
  - assert (Hs : has_ink s = false) by (apply rstrip_empty; exact Er).
    unfold has_ink in *. simpl. rewrite Hs.
    destruct (is_space c) eqn:Ec; simpl; rewrite ?Ec; reflexivity.
  - unfold has_ink in *. simpl in *. rewrite IH. reflexivity.
Qed.

Lemma has_ink_strip (s : string) : has_ink (strip s) = has_ink s.
Proof. unfold strip. rewrite has_ink_rstrip. apply has_ink_lstrip. Qed.

Lemma strip_empty (s : string) : strip s = EmptyString <-> has_ink s = false.
Proof.
  unfold strip. rewrite rstrip_empty. rewrite has_ink_lstrip. reflexivity.
Qed.

Lemma has_ink_collapse (b : bool) (s : string) :
  has_ink (collapse_from b s) = has_ink s.
Proof.
  unfold has_ink. revert b. induction s as [|c s IH]; intros b; simpl;
    [reflexivity|].
  destruct (is_space c) eqn:Ec.
  - destruct b; simpl; [apply IH|].
    change (is_space " "%char) with true. simpl. apply IH.
  - simpl. rewrite Ec. simpl. reflexivity.
Qed.

Lemma has_ink_nonempty (s : string) : has_ink s = true -> s <> EmptyString.
Proof. destruct s; [discriminate | discriminate]. Qed.

(** A stripped string is empty or starts with a character that is no
    blank. *)
Lemma lstrip_head (s : string) :
  match lstrip s with
  | EmptyString => True
  | String c _ => is_space c = false
  end.
Proof.
  induction s as [|c s IH]; simpl; [exact I|].
  destruct (is_space c) eqn:Ec; [exact IH | exact Ec].
Qed.

Lemma rstrip_head (s : string) :
  match s with
  | EmptyString => True
  | String c _ => is_space c = false
  end ->
  match rstrip s with
  | EmptyString => True
  | String c _ => is_space c = false
  end.
Proof.
  destruct s as [|c s]; simpl; [tauto|]. intros Hc.
  destruct (rstrip s); [rewrite Hc|]; exact Hc.
Qed.

Lemma lstrip_fixed (s : string) :
  match s with
  | EmptyString => True
  | String c _ => is_space c = false
  end ->
  lstrip s = s.
Proof.
  destruct s as [|c s]; simpl; [reflexivity|]. intros ->. reflexivity.
Qed.

Lemma rstrip_idem (s : string) : rstrip (rstrip s) = rstrip s.
Proof.
  induction s as [|c s IH]; simpl; [reflexivity|].
  destruct (rstrip s) as [|d r] eqn:Er.
  - destruct (is_space c) eqn:Ec; simpl; [reflexivity|].
    rewrite Ec. reflexivity.
  - change (rstrip (String c (String d r)))
      with (match rstrip (String d r) with
            | EmptyString => if is_space c then EmptyString
                             else String c EmptyString
            | x => String c x
            end).
    rewrite IH. reflexivity.
Qed.

(** [strip] is idempotent. *)
Lemma strip_idem (s : string) : strip (strip s) = strip s.
Proof.
  unfold strip at 1.
  assert (H : lstrip (strip s) = strip s).
  { apply lstrip_fixed. unfold strip. apply rstrip_head, lstrip_head. }
  rewrite H. unfold strip. apply rstrip_idem.
Qed.

(** Collapsing is idempotent. *)
Lemma collapse_idem (b : bool) (s : string) :
  collapse_from b (collapse_from b s) = collapse_from b s.
Proof.
  revert b. induction s as [|c s IH]; intros b; simpl; [reflexivity|].
  destruct (is_space c) eqn:Ec.
  - destruct b; [apply IH|].
    simpl. change (is_space " "%char) with true. cbv iota.
    rewrite IH. reflexivity.
  - simpl. rewrite Ec. rewrite IH. reflexivity.
Qed.

(** Collapsing a string without a blank at an end gives such a string. *)
Lemma rstrip_collapse (s : string) :
  forall b, rstrip s = s -> rstrip (collapse_from b s) = collapse_from b s.
Proof.
  induction s as [|c s IH]; intros b; simpl; [reflexivity|].
  destruct (rstrip s) as [|d r] eqn:Er.
  - destruct (is_space c) eqn:Ec; [discriminate|].
    intros E. injection E as <-. simpl. rewrite Ec. reflexivity.
  - intros E. injection E as E.
    assert (Hink : has_ink s = true).
    { destruct (has_ink s) eqn:Hs; [reflexivity|].
      apply rstrip_empty in Hs. congruence. }
    assert (Hne : forall b', collapse_from b' s <> EmptyString).
    { intros b'. apply has_ink_nonempty. rewrite has_ink_collapse. exact Hink. }
    assert (Hcons : forall (x : ascii) (t : string),
               t <> EmptyString -> rstrip t = t ->
               rstrip (String x t) = String x t).
    { intros x t Ht Et. simpl. rewrite Et. destruct t; [congruence|reflexivity]. }
    destruct (is_space c).
    + destruct b.
      * apply IH, E.
      * apply Hcons; [apply Hne | apply IH, E].
    + apply Hcons; [apply Hne | apply IH, E].
Qed.

Lemma lstrip_collapse (s : string) :
  lstrip s = s -> lstrip (collapse_ws s) = collapse_ws s.
Proof.
  unfold collapse_ws. destruct s as [|c s]; simpl; [reflexivity|].
  destruct (is_space c) eqn:Ec.
  - intros E. exfalso.
    assert (Hl : (String.length (lstrip s) <= String.length s)%nat).
    { clear. induction s as [|d s IH]; simpl; [lia|].
      destruct (is_space d); simpl; lia. }
    rewrite E in Hl. simpl in Hl. lia.
  - intros _. simpl. rewrite Ec. reflexivity.
Qed.

(** The text [clean_and_filter_text] stores, and the title
    [detect_title_advanced] cleans, is unchanged by stripping again. *)
Lemma strip_collapse_strip (s : string) :
  strip (collapse_ws (strip s)) = collapse_ws (strip s).
Proof.
  assert (Hl : lstrip (strip s) = strip s).
  { apply lstrip_fixed. unfold strip. apply rstrip_head, lstrip_head. }
  assert (Hr : rstrip (strip s) = strip s).
  { unfold strip. apply rstrip_idem. }
  unfold strip at 1. rewrite (lstrip_collapse _ Hl).
  unfold collapse_ws. apply rstrip_collapse, Hr.
Qed.

Lemma take_length (n : nat) (s : string) :
  String.length (take n s) = Nat.min n (String.length s).
Proof.
  unfold take. revert n. induction s as [|c s IH]; intros [|n]; simpl;
    try reflexivity.
  rewrite IH. reflexivity.
Qed.

Lemma count_words_empty (b : bool) : count_words_from b EmptyString = 0%nat.
Proof. reflexivity. Qed.

End StringFacts.

(* ================================================================== *)
(** ** Further properties of the conservative extractor *)
(* ================================================================== *)

Module EnhancedFacts.
Import PyStr Re Enhanced Titles.

Lemma fold_left_invariant {A B : Type} (P : A -> Prop) (f : A -> B -> A)
    (l : list B) (init : A) :
  P init ->
  (forall acc b, In b l -> P acc -> P (f acc b)) ->
  P (fold_left f l init).
Proof.
  revert init. induction l as [|b l IH]; intros init Hinit Hstep; simpl.
  - exact Hinit.
  - apply IH.
    + apply Hstep; [left; reflexivity | exact Hinit].
    + intros acc b' Hb'. apply Hstep. right. exact Hb'.
Qed.

Lemma first_page_In (n : nat) (blocks : list Block) (b : Block) :
  In b (firstn n (filter (fun b => (page b =? 1)%Z) blocks)) ->
  In b blocks /\ page b = 1%Z.
Proof.
  intros H. apply AssemblerFacts.firstn_In in H.
  apply filter_In in H. destruct H as [Hin Hp].
  split; [exact Hin | apply Z.eqb_eq, Hp].
Qed.

Lemma visual_title_origin (blocks : list Block) :
  let t := _extract_title_from_visual_document blocks in
  t = "Document Title"
  \/ exists b, In b blocks /\ page b = 1%Z /\ t = strip (text b)
               /\ (1 <= String.length t)%nat
               /\ existsb (fun indicator => contains indicator (lower t))
                          never_headings = false.
Proof.
  unfold _extract_title_from_visual_document.
  set (fpb := firstn 10 (filter (fun b => (page b =? 1)%Z) blocks)).
  match goal with
  | |- context [fold_left ?f fpb (None, 0)] => set (step := f)
  end.
  assert (Hinv : visual_choice blocks (fst (fold_left step fpb (None, 0)))).
  { apply (fold_left_invariant
             (fun st => visual_choice blocks (fst st)) step fpb (None, 0)).
    - exact I.
    - intros [best score] b Hb Hacc. unfold step. simpl in Hacc.
      destruct ((String.length (strip (text b)) <? 3)%nat) eqn:E1;
        [exact Hacc|].
      destruct (existsb (fun indicator =>
                           contains indicator (lower (strip (text b))))
                        never_headings) eqn:E2; [exact Hacc|].
      destruct (startswith_any (lower (strip (text b)))
                               ["page"; "copyright"; "©"]); [exact Hacc|].
      simpl. destruct (Qltb score (visual_score b (strip (text b))));
        [|exact Hacc].
      simpl. destruct (first_page_In _ _ _ Hb) as [Hin Hp].
      exists b. repeat split; try assumption.
      apply Nat.ltb_ge, E1. }
  destruct (fold_left step fpb (None, 0)) as [best score]. simpl in Hinv.
  assert (Hfallback :
            let t := match find (fun b =>
                                   (3 <? String.length (strip (text b)))%nat
                                   && negb (existsb
                                              (fun indicator =>
                                                 contains indicator
                                                   (lower (strip (text b))))
                                              never_headings)) fpb with
                     | Some b => strip (text b)
                     | None => "Document Title"
                     end in
            t = "Document Title"
            \/ exists b, In b blocks /\ page b = 1%Z /\ t = strip (text b)
                         /\ (1 <= String.length t)%nat
                         /\ existsb (fun indicator =>
                                       contains indicator (lower t))
                                    never_headings = false).
  { destruct (find _ fpb) as [b|] eqn:Ef; [|left; reflexivity].
    apply find_some in Ef. destruct Ef as [Hb Hc].
    apply andb_true_iff in Hc. destruct Hc as [Hlen Hden].
    apply Nat.ltb_lt in Hlen. apply negb_true_iff in Hden.
    destruct (first_page_In _ _ _ Hb) as [Hin Hp].
    right. exists b. repeat split; try assumption. lia. }
  destruct best as [[|c t]|]; try exact Hfallback.
  destruct Hinv as (b & Hin & Hp & Et & Hlen & Hden).
  right. exists b. repeat split; try assumption. lia.
Qed.

Lemma structured_title_origin (blocks : list Block) :
  let t := _extract_title_from_structured_document blocks in
  t = "Document Title"
  \/ exists b, In b blocks /\ page b = 1%Z /\ t = strip (text b)
               /\ (10 < String.length t < 150)%nat
               /\ _is_navigation_text t = false.
Proof.
  unfold _extract_title_from_structured_document.
  destruct (find _ _) as [b|] eqn:Ef; [|left; reflexivity].
  apply find_some in Ef. destruct Ef as [Hb Hc].
  apply andb_true_iff in Hc. destruct Hc as [Hc _].
  apply andb_true_iff in Hc. destruct Hc as [Hc Hnav].
  apply andb_true_iff in Hc. destruct Hc as [H1 H2].
  apply Nat.ltb_lt in H1, H2. apply negb_true_iff in Hnav.
  destruct (first_page_In _ _ _ Hb) as [Hin Hp].
  right. exists b. repeat split; assumption.
Qed.

Lemma simple_title_origin (blocks : list Block) :
  let t := _extract_title_from_simple_document blocks in
  t = "Document Title"
  \/ exists b, In b blocks /\ t = strip (text b)
               /\ (5 < String.length t < 100)%nat.
Proof.
  unfold _extract_title_from_simple_document.
  destruct (find _ _) as [b|] eqn:Ef; [|left; reflexivity].
  apply find_some in Ef. destruct Ef as [Hb Hc].
  apply andb_true_iff in Hc. destruct Hc as [H1 H2].
  apply Nat.ltb_lt in H1, H2. apply AssemblerFacts.firstn_In in Hb.
  right. exists b. repeat split; assumption.
Qed.

(** X1: whatever the blocks and the type, the title is the placeholder
    "Document Title" or the stripped text of one of the blocks; it is
    never the empty string.  The title of the result of [extract_outline]
    is never empty either. *)
Theorem title_is_placeholder_or_block_text
    (blocks : list Block) (doc_type : DocType) :
  (extract_title_enhanced blocks doc_type = "Document Title"
   \/ exists b, In b blocks
                /\ extract_title_enhanced blocks doc_type = strip (text b))
  /\ (1 <= String.length (extract_title_enhanced blocks doc_type))%nat
  /\ (1 <= String.length (title (extract_outline blocks)))%nat.
Proof.
  assert (H : (extract_title_enhanced blocks doc_type = "Document Title"
               \/ exists b, In b blocks
                            /\ extract_title_enhanced blocks doc_type
                               = strip (text b))
              /\ (1 <= String.length (extract_title_enhanced blocks doc_type))%nat).
  { unfold extract_title_enhanced.
    destruct blocks as [|b0 blocks]; [split; [left; reflexivity | simpl; lia]|].
    destruct doc_type.
    - destruct (visual_title_origin (b0 :: blocks))
        as [-> | (b & Hin & _ & -> & Hlen & _)].
      + split; [left; reflexivity | simpl; lia].
      + split; [right; exists b; split; [exact Hin | reflexivity] | exact Hlen].
    - destruct (visual_title_origin (b0 :: blocks))
        as [-> | (b & Hin & _ & -> & Hlen & _)].
      + split; [left; reflexivity | simpl; lia].
      + split; [right; exists b; split; [exact Hin | reflexivity] | exact Hlen].
    - destruct (visual_title_origin (b0 :: blocks))
        as [-> | (b & Hin & _ & -> & Hlen & _)].
      + split; [left; reflexivity | simpl; lia].
      + split; [right; exists b; split; [exact Hin | reflexivity] | exact Hlen].
    - destruct (simple_title_origin (b0 :: blocks))
        as [-> | (b & Hin & -> & Hlen)].
      + split; [left; reflexivity | simpl; lia].
      + split; [right; exists b; split; [exact Hin | reflexivity] | lia].
    - destruct (simple_title_origin (b0 :: blocks))
        as [-> | (b & Hin & -> & Hlen)].
      + split; [left; reflexivity | simpl; lia].
      + split; [right; exists b; split; [exact Hin | reflexivity] | lia].
    - destruct (structured_title_origin (b0 :: blocks))
        as [-> | (b & Hin & _ & -> & Hlen & _)].
      + split; [left; reflexivity | simpl; lia].
      + split; [right; exists b; split; [exact Hin | reflexivity] | lia].
    - destruct (structured_title_origin (b0 :: blocks))
        as [-> | (b & Hin & _ & -> & Hlen & _)].
      + split; [left; reflexivity | simpl; lia].
      + split; [right; exists b; split; [exact Hin | reflexivity] | lia]. }
  destruct H as [Horigin Hlen].
  split; [exact Horigin|]. split; [exact Hlen|].
  clear Horigin Hlen.
  unfold extract_outline. destruct blocks as [|b0 blocks]; [simpl; lia|].
  cbv zeta.
  assert (Ht : (1 <= String.length
                       (extract_title_enhanced (b0 :: blocks)
                          (detect_document_type (b0 :: blocks))))%nat).
  { generalize (detect_document_type (b0 :: blocks)). intros dt.
    unfold extract_title_enhanced.
    destruct dt;
      first [ destruct (visual_title_origin (b0 :: blocks))
                as [-> | (b & _ & _ & -> & Hlen & _)]
            | destruct (simple_title_origin (b0 :: blocks))
                as [-> | (b & _ & -> & Hlen)]
            | destruct (structured_title_origin (b0 :: blocks))
                as [-> | (b & _ & _ & -> & Hlen & _)] ];
      simpl; lia. }
  destruct (negb (should_extract_headings _ _)); exact Ht.
Qed.

(** X2: the title by strategy.  For a form, an invitation or a flyer the
    title is the placeholder or the stripped text of a block of page 1
    that holds no denylisted substring; for a standard or complex document
    it is the placeholder or the stripped text, of 11 to 149 characters
    and not navigation text, of a block of page 1; for the other types it
    is the placeholder or the stripped text, of 6 to 99 characters, of a
    block. *)
Theorem title_by_strategy (b0 : Block) (rest : list Block) (doc_type : DocType) :
  let blocks := b0 :: rest in
  let t := extract_title_enhanced blocks doc_type in
  t = "Document Title"
  \/ exists b,
       In b blocks /\ t = strip (text b)
       /\ match doc_type with
          | Form | Invitation | Flyer =>
              page b = 1%Z
              /\ existsb (fun indicator => contains indicator (lower t))
                         never_headings = false
          | StandardDocument | ComplexDocument =>
              page b = 1%Z /\ (10 < String.length t < 150)%nat
              /\ _is_navigation_text t = false
          | _ => (5 < String.length t < 100)%nat
          end.
Proof.
  intros blocks t. unfold t, extract_title_enhanced, blocks.
  destruct doc_type;
    first [ destruct (visual_title_origin (b0 :: rest))
              as [E | (b & Hin & Hp & E & Hlen & Hden)];
            [left; exact E | right; exists b; rewrite <- E; auto]
          | destruct (simple_title_origin (b0 :: rest))
              as [E | (b & Hin & E & Hlen)];
            [left; exact E | right; exists b; rewrite <- E; auto]
          | destruct (structured_title_origin (b0 :: rest))
              as [E | (b & Hin & Hp & E & Hlen & Hnav)];
            [left; exact E | right; exists b; rewrite <- E; auto] ].
Qed.

(** *** The outline *)

Lemma NoDup_snoc {A : Type} (l : list A) (x : A) :
  NoDup l -> ~ In x l -> NoDup (l ++ [x]).
Proof.
  induction 1 as [|y l Hy Hl IH]; simpl; intros Hx.
  - constructor; [intros [] | constructor].
  - constructor.
    + rewrite in_app_iff. simpl. intuition congruence.
    + apply IH. intuition.
Qed.

Lemma same_text_seen (acc : list Heading) (h : Heading) :
  existsb (fun x => String.eqb (h_text x) (h_text h)) acc = true
  <-> In (h_text h) (map h_text acc).
Proof.
  rewrite existsb_exists, in_map_iff. split.
  - intros [x [Hx E]]. apply String.eqb_eq in E. exists x. split; assumption.
  - intros [x [E Hx]]. exists x. split; [exact Hx | apply String.eqb_eq, E].
Qed.

Lemma remove_duplicates_NoDup (hs : list Heading) :
  NoDup (map h_text (remove_duplicates hs)).
Proof.
  unfold remove_duplicates.
  apply (fold_left_invariant (fun acc => NoDup (map h_text acc))).
  - constructor.
  - intros acc h _ Hacc.
    destruct (existsb _ acc) eqn:E; simpl; [exact Hacc|].
    rewrite map_app. simpl. apply NoDup_snoc; [exact Hacc|].
    intros Hin. apply same_text_seen in Hin. congruence.
Qed.

(** A kept heading is the first of its text in the list. *)
Lemma remove_duplicates_first (hs : list Heading) :
  forall (acc : list Heading) (h : Heading),
    In h (fold_left
            (fun final_headings heading =>
               if negb (existsb (fun x => String.eqb (h_text x) (h_text heading))
                                final_headings)
               then final_headings ++ [heading]
               else final_headings)
            hs acc) ->
    In h acc
    \/ (exists pre post,
           hs = pre ++ h :: post
           /\ (forall x, In x pre -> h_text x <> h_text h)
           /\ (forall x, In x acc -> h_text x <> h_text h)).
Proof.
  induction hs as [|a hs IH]; intros acc h Hin; simpl in Hin.
  - left. exact Hin.
  - destruct (existsb (fun x => String.eqb (h_text x) (h_text a)) acc) eqn:E;
      simpl in Hin; apply IH in Hin.
    + destruct Hin as [Hin | (pre & post & -> & Hpre & Hacc)];
        [left; exact Hin | right].
      exists (a :: pre), post. split; [reflexivity|]. split; [|exact Hacc].
      intros x [<- | Hx]; [|apply Hpre, Hx].
      intros Et. apply same_text_seen in E. apply in_map_iff in E.
      destruct E as [y [Ey Hy]]. apply (Hacc y Hy). congruence.
    + destruct Hin as [Hin | (pre & post & -> & Hpre & Hacc)].
      * apply in_app_iff in Hin. destruct Hin as [Hin | [<- | []]];
          [left; exact Hin | right].
        exists [], hs. split; [reflexivity|]. split; [intros x []|].
        intros x Hx Et.
        assert (E' : existsb (fun y => String.eqb (h_text y) (h_text a)) acc
                     = true).
        { apply same_text_seen. rewrite <- Et. apply in_map, Hx. }
        congruence.
      * right. exists (a :: pre), post. split; [reflexivity|]. split.
        -- intros x [<- | Hx]; [|apply Hpre, Hx].
           apply Hacc. apply in_app_iff. right. left. reflexivity.
        -- intros x Hx. apply Hacc. apply in_app_iff. left. exact Hx.
Qed.

Lemma sorted_after {A : Type} (R : A -> A -> Prop) (pre post : list A) (h : A) :
  StronglySorted R (pre ++ h :: post) -> forall c, In c post -> R h c.
Proof.
  induction pre as [|x pre IH]; simpl; intros Hs c Hc.
  - inversion Hs as [|? ? _ Hall]; subst.
    rewrite Forall_forall in Hall. apply Hall, Hc.
  - inversion Hs; subst. apply IH; assumption.
Qed.

Lemma outline_unfold (blocks : list Block) (e : Entry) :
  In e (outline (extract_outline blocks)) ->
  should_extract_headings (detect_document_type blocks) blocks = true
  /\ exists h,
       In h (remove_duplicates
               (sort key_lt
                  (potential_headings blocks (detect_document_type blocks))))
       /\ e = format h.
Proof.
  unfold extract_outline. destruct blocks as [|b0 blocks]; [intros []|].
  cbv zeta.
  destruct (should_extract_headings _ _); simpl; [|intros []].
  intros H. apply in_map_iff in H. destruct H as [h [<- Hh]].
  split; [reflexivity|]. exists h. split; [exact Hh | reflexivity].
Qed.

(** X3: no two entries of the outline have the same text. *)
Theorem outline_texts_distinct (blocks : list Block) :
  NoDup (map e_text (outline (extract_outline blocks))).
Proof.
  unfold extract_outline. destruct blocks as [|b0 blocks]; [constructor|].
  cbv zeta. destruct (negb (should_extract_headings _ _)); [constructor|].
  cbn [outline]. rewrite map_map. simpl. apply remove_duplicates_NoDup.
Qed.

(** X4: of the candidates that share a text, the outline keeps one of the
    earliest page: no candidate with the text of an entry is on a page
    before the page of the entry. *)
Theorem outline_keeps_earliest_page (blocks : list Block) (e : Entry)
    (c : Heading) :
  In e (outline (extract_outline blocks)) ->
  In c (potential_headings blocks (detect_document_type blocks)) ->
  h_text c = e_text e ->
  (e_page e <= h_page c)%Z.
Proof.
  intros He Hc Et. apply outline_unfold in He.
  destruct He as (_ & h & Hh & ->). simpl in *.
  unfold remove_duplicates in Hh. apply remove_duplicates_first in Hh.
  destruct Hh as [[] | (pre & post & Es & Hpre & _)].
  pose proof (sort_sorted key_lt enhanced_key_lt_asym enhanced_key_le_trans
                (potential_headings blocks (detect_document_type blocks)))
    as Hs.
  apply (proj2 (sort_In key_lt _ _)) in Hc. rewrite Es in Hc, Hs.
  apply in_app_iff in Hc. destruct Hc as [Hc | [<- | Hc]].
  - exfalso. apply (Hpre c Hc). exact Et.
  - lia.
  - pose proof (sorted_after _ _ _ _ Hs c Hc) as Hle.
    unfold not_after, key_lt in Hle.
    destruct (Z.eqb_spec (h_page c) (h_page h)) as [E|E]; [lia|].
    apply Z.ltb_ge in Hle. lia.
Qed.

Lemma outline_keeps_earliest_page_witness :
  outline (extract_outline Samples.repeated_section)
  = [mkEntry H1 "1. Introduction" 1]
  /\ (e_page (mkEntry H1 "1. Introduction" 1)
      <= h_page (mkHeading H1 "1. Introduction" 3 (100 # 100)))%Z.
Proof.
  split; [vm_compute; reflexivity|].
  apply (outline_keeps_earliest_page Samples.repeated_section).
  - vm_compute. left. reflexivity.
  - vm_compute. left. reflexivity.
  - reflexivity.
Defined.

Lemma candidate_origin (doc_type : DocType) (b : Block) (h : Heading) :
  In h (candidate_of doc_type b) ->
  h_text h = strip (text b) /\ h_page h = page b
  /\ disqualified (strip (text b)) = false
  /\ ((h_level h = H1 /\ Scorer.h1_pattern (strip (text b)) = true)
      \/ (h_level h = H2
          /\ match_end h1_definite (strip (text b)) = false
          /\ match_end h2_definite (strip (text b)) = true)).
Proof.
  unfold candidate_of, calculate_ultra_conservative_heading_score,
    Scorer.h1_pattern.
  destruct (disqualified (strip (text b))); [intros []|].
  destruct (match_end h1_definite (strip (text b))).
  { vm_compute (Qgeb 100 80). cbv iota beta.
    destruct (negb (Level_eqb H1 CONTENT) && Qgeb (Qmin (100 / 100) 1) (8 # 10));
      [|intros []].
    intros [<- | []]. simpl. repeat split. left. split; reflexivity. }
  destruct (match_end h2_definite (strip (text b))).
  { vm_compute (Qgeb 0 80). vm_compute (Qgeb 100 80). cbv iota beta.
    destruct (negb (Level_eqb H2 CONTENT) && Qgeb (Qmin (100 / 100) 1) (8 # 10));
      [|intros []].
    intros [<- | []]. simpl. repeat split. right. repeat split. }
  destruct (match_end h1_special (strip (text b))).
  { vm_compute (Qgeb 90 80). cbv iota beta.
    destruct (negb (Level_eqb H1 CONTENT) && Qgeb (Qmin (90 / 100) 1) (8 # 10));
      [|intros []].
    intros [<- | []]. simpl. repeat split. left. split; reflexivity. }
  vm_compute (Qgeb 0 80). cbv iota beta. simpl. intros [].
Qed.

Lemma not_disqualified (t : string) :
  disqualified t = false ->
  (4 <= String.length t <= 100)%nat
  /\ (forall never, In never never_headings ->
                    contains never (lower t) = false).
Proof.
  unfold disqualified. intros H.
  repeat (apply orb_false_iff in H; destruct H as [H ?]).
  apply Nat.ltb_ge in H.
  match goal with E : (100 <? _)%nat = false |- _ => apply Nat.ltb_ge in E end.
  split; [lia|].
  intros never Hin.
  match goal with
  | E : existsb _ never_headings = false |- _ =>
      destruct (contains never (lower t)) eqn:Ec; [|reflexivity];
      assert (existsb (fun never0 => contains never0 (lower t)) never_headings
              = true)
        by (apply existsb_exists; exists never; split; assumption);
      congruence
  end.
Qed.

Lemma gate_open_length (doc_type : DocType) (blocks : list Block) :
  should_extract_headings doc_type blocks = true ->
  (15 <= List.length blocks)%nat
  /\ (doc_type = Simple \/ doc_type = ComplexDocument
      \/ doc_type = StandardDocument).
Proof.
  unfold should_extract_headings.
  destruct doc_type; try discriminate;
    destruct (Nat.ltb_spec (List.length blocks) 15); try discriminate;
    intros _; split; auto.
Qed.

(** X5: every entry of the outline comes from a block: it has the
    stripped text and the page of the block; the text has 4 to 100
    characters and holds no denylisted substring once lowercased; the
    level is H1 on a numbered-section or special-section text and H2 on a
    numbered-subsection text, and nothing else.  An outline with an entry
    means at least 15 blocks and a document classified Simple, Standard
    or Complex. *)
Theorem outline_entry_origin (blocks : list Block) (e : Entry) :
  In e (outline (extract_outline blocks)) ->
  (15 <= List.length blocks)%nat
  /\ (detect_document_type blocks = Simple
      \/ detect_document_type blocks = ComplexDocument
      \/ detect_document_type blocks = StandardDocument)
  /\ exists b,
       In b blocks
       /\ e_text e = strip (text b) /\ e_page e = page b
       /\ (4 <= String.length (e_text e) <= 100)%nat
       /\ (forall never, In never never_headings ->
                         contains never (lower (e_text e)) = false)
       /\ ((e_level e = H1 /\ Scorer.h1_pattern (e_text e) = true)
           \/ (e_level e = H2
               /\ match_end h1_definite (e_text e) = false
               /\ match_end h2_definite (e_text e) = true)).
Proof.
  intros He. apply outline_unfold in He.
  destruct He as (Hgate & h & Hh & ->).
  destruct (gate_open_length _ _ Hgate) as [Hlen Hty].
  split; [exact Hlen|]. split; [exact Hty|].
  destruct (OrderFacts.remove_duplicates_subseq
              (sort key_lt
                 (potential_headings blocks (detect_document_type blocks))))
    as [kept [Hs Ek]].
  rewrite Ek in Hh. apply (Subseq_In _ _ _ Hs) in Hh.
  apply (proj1 (sort_In key_lt _ _)) in Hh.
  unfold potential_headings in Hh. apply in_flat_map in Hh.
  destruct Hh as [b [Hb Hh]].
  apply candidate_origin in Hh. destruct Hh as (Et & Ep & Hd & Hlev).
  apply not_disqualified in Hd. destruct Hd as [Hl Hden].
  exists b. simpl. rewrite Et. auto 7.
Qed.

Lemma outline_entry_origin_witness :
  (15 <= List.length Samples.numbered_report)%nat
  /\ exists b,
       In b Samples.numbered_report
       /\ "1. Introduction" = strip (text b) /\ 1%Z = page b.
Proof.
  destruct (outline_entry_origin Samples.numbered_report
              (mkEntry H1 "1. Introduction" 1))
    as (Hlen & _ & b & Hb & Et & Ep & _).
  - vm_compute. left. reflexivity.
  - split; [exact Hlen|]. exists b. auto.
Defined.

End EnhancedFacts.

(* ================================================================== *)
(** ** Further properties of the statistical extractor *)
(* ================================================================== *)

Module StatisticalFacts.
Import PyStr Re PFinal Assembler Separation.

Lemma StronglySorted_snoc {A : Type} (R : A -> A -> Prop) (l : list A) (x : A) :
  StronglySorted R l -> Forall (fun a => R a x) l ->
  StronglySorted R (l ++ [x]).
Proof.
  induction 1 as [|y l Hs IH Hall]; simpl; intros Hx.
  - constructor; constructor.
  - inversion Hx as [|? ? Hyx Hlx]; subst. constructor.
    + apply IH, Hlx.
    + rewrite Forall_forall in *. intros a Ha.
      apply in_app_iff in Ha. destruct Ha as [Ha | [<- | []]];
        [apply Hall, Ha | exact Hyx].
Qed.

Lemma kept_is_separated (acc : list Entry) (h : Heading) :
  is_dropped (seen_of acc) h = false ->
  Forall (fun a => separated a (project h)) acc.
Proof.
  intros Hd. rewrite Forall_forall. intros a Ha.
  assert (Hseen : In (normalize (e_text a)) (seen_of acc)).
  { unfold seen_of. apply in_map_iff. exists a. split; [reflexivity | exact Ha]. }
  assert (Hnot : ~ drop_condition (seen_of acc) (normalize (h_text h))).
  { intros Hc. apply AssemblerFacts.is_dropped_iff in Hc. congruence. }
  unfold separated. simpl. split.
  - intros E. apply Hnot. left. rewrite <- E. exact Hseen.
  - intros Hlen. split.
    + destruct (contains (normalize (h_text h)) (normalize (e_text a))) eqn:E;
        [|reflexivity].
      exfalso. apply Hnot. right. split; [exact Hlen|].
      exists (normalize (e_text a)). split; [exact Hseen | left; exact E].
    + destruct (contains (normalize (e_text a)) (normalize (h_text h))) eqn:E;
        [|reflexivity].
      exfalso. apply Hnot. right. split; [exact Hlen|].
      exists (normalize (e_text a)). split; [exact Hseen | right; exact E].
Qed.

Lemma filter_loop_separated (hs : list Heading) :
  forall seen acc,
    seen = seen_of acc -> StronglySorted separated acc ->
    StronglySorted separated (snd (filter_loop seen acc hs)).
Proof.
  induction hs as [|h hs IH]; intros seen acc Es Hacc; simpl; [exact Hacc|].
  destruct (is_dropped seen h) eqn:Ed.
  - apply IH; assumption.
  - apply IH.
    + subst seen. unfold seen_of. rewrite map_app. reflexivity.
    + apply StronglySorted_snoc; [exact Hacc|].
      apply kept_is_separated. rewrite <- Es. exact Ed.
Qed.

(** X6: in the outline of the statistical extractor, an entry is no near
    duplicate of an entry listed before it: their normalized texts
    differ, and when the later one has more than 10 characters neither
    normalized text is part of the other. *)
Theorem outline_entries_separated (text_items : list Item) :
  StronglySorted separated (classify_headings_advanced text_items).
Proof.
  unfold classify_headings_advanced.
  destruct text_items as [|i0 items]; [constructor|].
  destruct (positive_sizes (i0 :: items)); [constructor|].
  rewrite AssemblerFacts.post_process_unfold.
  apply (Subseq_sorted _ _ _ (Subseq_firstn 50 _)).
  apply filter_loop_separated; [reflexivity | constructor].
Qed.

Lemma level_is_heading (item : Item) (th : Thresholds) (st : SizeStats) :
  determine_level_advanced item th st <> CONTENT.
Proof.
  unfold determine_level_advanced, size_level.
  destruct (match_prefix re_appendix (text item)); [discriminate|].
  destruct (existsb _ _); [discriminate|].
  destruct (startswith (text item) "For each" && endswith (text item) ":");
    [discriminate|].
  destruct (match_prefix re_subsection (text item)); [discriminate|].
  destruct (match_prefix re_phase (text item)); [discriminate|].
  destruct (Qgeb (size item) (h1 th)); [discriminate|].
  destruct (Qgeb (size item) (h2 th)); [discriminate|].
  destruct (Qgeb (size item) (h3 th)); discriminate.
Qed.

Lemma candidate_admitted (th : Thresholds) (st : SizeStats) (item : Item)
    (h : Heading) :
  In h (candidate_of th st item) ->
  h = mkHeading (determine_level_advanced item th st) (strip (text item))
                (page item) (size item)
                (calculate_confidence_advanced item th st) (y item)
  /\ could_be_heading (strip (text item)) (size item) (mean st) = true
  /\ 2 < calculate_confidence_advanced item th st.
Proof.
  unfold candidate_of.
  destruct (could_be_heading (strip (text item)) (size item) (mean st));
    simpl; [|intros []].
  destruct (Qltb 2 (calculate_confidence_advanced item th st)) eqn:E;
    simpl; [|intros []].
  intros [<- | []]. repeat split. apply Qltb_true, E.
Qed.

Lemma could_be_heading_true (t : string) (sz m : Q) :
  could_be_heading t sz m = true ->
  (3 <= String.length t <= 200)%nat /\ Binary64.fsub m 1 <= sz
  /\ is_obviously_body_text t = false.
Proof.
  unfold could_be_heading.
  destruct (Nat.ltb_spec (String.length t) 3); [discriminate|].
  destruct (Nat.ltb_spec 200 (String.length t)); [discriminate|]. simpl.
  destruct (Qltb sz (Binary64.fsub m 1)) eqn:E; [discriminate|].
  destruct (is_obviously_body_text t); [discriminate|].
  intros _. repeat split; try lia. apply Qltb_false, E.
Qed.

(** X7: every entry of the outline of the statistical extractor was
    admitted on an item: it has the stripped text and the page of the
    item and the level the level assignment gives the item, which is one
    of H1 to H4; the text has 3 to 200 characters and is not obvious body
    text; and the confidence of the item is above 2. *)
Theorem outline_entry_admitted (text_items : list Item) (e : Entry) :
  In e (classify_headings_advanced text_items) ->
  let stats := size_stats_of (positive_sizes text_items) in
  let th := calculate_heading_thresholds stats in
  exists item,
    In item text_items
    /\ e = mkEntry (determine_level_advanced item th stats)
                   (strip (text item)) (page item)
    /\ In (e_level e) [H1; H2; H3; H4]
    /\ (3 <= String.length (e_text e) <= 200)%nat
    /\ is_obviously_body_text (e_text e) = false
    /\ 2 < calculate_confidence_advanced item th stats.
Proof.
  intros He stats th. unfold classify_headings_advanced in He.
  destruct text_items as [|i0 items]; [destruct He|].
  destruct (positive_sizes (i0 :: items)) eqn:Ep; [destruct He|].
  apply AssemblerFacts.post_process_In in He. destruct He as [h [Hh ->]].
  unfold potential_headings in Hh. rewrite Ep in Hh.
  apply in_flat_map in Hh. destruct Hh as [item [Hitem Hh]].
  apply candidate_admitted in Hh. destruct Hh as (-> & Hc & Hconf).
  apply could_be_heading_true in Hc. destruct Hc as (Hlen & _ & Hbody).
  exists item. unfold project. simpl.
  split; [exact Hitem|]. split; [reflexivity|].
  split; [|split; [exact Hlen|split; [exact Hbody | exact Hconf]]].
  cbn [e_level].
  match goal with
  | |- H1 = ?l \/ _ =>
      assert (Hl : l <> CONTENT) by apply level_is_heading;
      destruct l; tauto
  end.
Qed.

Lemma outline_entry_admitted_witness :
  exists item,
    In item Samples.caption_doc
    /\ mkEntry H1 "SUMMARY OF RESULTS" 1
       = mkEntry (determine_level_advanced item
                    (calculate_heading_thresholds
                       (size_stats_of (positive_sizes Samples.caption_doc)))
                    (size_stats_of (positive_sizes Samples.caption_doc)))
                 (strip (text item)) (page item).
Proof.
  destruct (outline_entry_admitted Samples.caption_doc
              (mkEntry H1 "SUMMARY OF RESULTS" 1))
    as (item & Hin & E & _).
  - vm_compute. left. reflexivity.
  - exists item. split; assumption.
Defined.

(** *** The title *)

Lemma cleaned_title_nonempty (t : string) :
  (1 <= String.length (strip t))%nat ->
  (1 <= String.length (strip (collapse_ws (strip t))))%nat.
Proof.
  intros H. apply StringFacts.length_pos in H. apply StringFacts.length_pos.
  intros E. apply StringFacts.strip_empty in E.
  unfold collapse_ws in E. rewrite StringFacts.has_ink_collapse in E.
  apply StringFacts.strip_empty in E.
  rewrite StringFacts.strip_idem in E. contradiction.
Qed.

Lemma title_candidate_origin (item : Item) (c : string * Q * Q) :
  In c (let t := strip (text item) in
        if (String.length t <? 5)%nat then []
        else if startswith_any (lower t) ["page "; "chapter "; "section "]
                || match_end re_page_number t
                || contains "March 2003" t
        then []
        else if Qltb (y item) 300 && (8 <? String.length t)%nat
                && Qgeb (size item) 12
        then [(t, size item, y item)]
        else []) ->
  c = (strip (text item), size item, y item)
  /\ (8 < String.length (strip (text item)))%nat.
Proof.
  cbv zeta.
  destruct (String.length (strip (text item)) <? 5)%nat; [intros []|].
  destruct (startswith_any _ _ || _ || _); [intros []|].
  destruct (Qltb (y item) 300); simpl; [|intros []].
  destruct (Nat.ltb_spec 8 (String.length (strip (text item)))); simpl;
    [|intros []].
  destruct (Qgeb (size item) 12); [|intros []].
  intros [<- | []]. split; [reflexivity | assumption].
Qed.

(** X8: the title of the statistical extractor is never empty and has at
    most 150 characters, for [detect_title_advanced] on any items and for
    the result of [extract_outline]. *)
Theorem statistical_title_bounds (text_items : list Item) :
  (1 <= String.length (detect_title_advanced text_items) <= 150)%nat
  /\ (1 <= String.length (title (extract_outline text_items)) <= 150)%nat.
Proof.
  assert (H : forall items,
             (1 <= String.length (detect_title_advanced items) <= 150)%nat).
  { intros items. unfold detect_title_advanced.
    destruct items as [|i0 items]; [simpl; lia|].
    match goal with
    | |- context [sort candidate_lt ?l] => set (tc := l)
    end.
    destruct (sort candidate_lt tc) as [|[[best sz] yy] rest] eqn:Es;
      [simpl; lia|].
    assert (Hbest : In (best, sz, yy) tc).
    { apply (proj1 (sort_In candidate_lt _ _)). rewrite Es. left. reflexivity. }
    unfold tc in Hbest. apply in_flat_map in Hbest.
    destruct Hbest as [item [_ Hc]].
    apply title_candidate_origin in Hc. destruct Hc as (E & Hlen).
    injection E as -> _ _.
    assert (H0 : (1 <= String.length
                         (strip (collapse_ws (strip (text item)))))%nat).
    { apply cleaned_title_nonempty. lia. }
    rewrite StringFacts.take_length.
    match goal with
    | |- (1 <= Nat.min 150 (String.length ?t) <= 150)%nat =>
        assert (Ht : (1 <= String.length t)%nat)
    end.
    { destruct ((15 <? _)%nat || (20 <? _)%nat); [|exact H0].
      destruct (find _ (firstn 2 rest)) as [[[cand sz'] yy']|] eqn:Ef;
        [|exact H0].
      apply find_some in Ef. destruct Ef as [_ Hc].
      apply andb_true_iff in Hc. destruct Hc as [Hc _].
      apply Nat.ltb_lt in Hc.
      destruct cand; [unfold count_words in Hc; simpl in Hc; lia | simpl; lia]. }
    lia. }
  split; [apply H|]. unfold extract_outline. simpl. apply H.
Qed.

(** *** Cleaning *)

(** X9: [clean_and_filter_text] keeps the order of the items it keeps and
    changes nothing but their text: its result is a subsequence of the
    input once every text is replaced by its stripped, blank-collapsed
    form.  Every text of the result is normalized: stripping it or
    collapsing its blanks again changes nothing. *)
Theorem cleaned_items_normalized (text_items : list Item) :
  Subseq (clean_and_filter_text text_items)
         (map (fun item => with_text item (collapse_ws (strip (text item))))
              text_items)
  /\ (forall item, In item (clean_and_filter_text text_items) ->
                   strip (text item) = text item
                   /\ collapse_ws (text item) = text item).
Proof.
  split.
  - unfold clean_and_filter_text.
    induction text_items as [|item items IH]; simpl; [constructor|].
    destruct (String.length (strip (text item)) <? 2)%nat;
      [apply Subseq_skip, IH|].
    destruct (is_header_footer (strip (text item)) item);
      [apply Subseq_skip, IH|].
    destruct (match_end re_digits_blanks_dashes (strip (text item))
              && (String.length (strip (text item)) <? 10)%nat);
      [apply Subseq_skip, IH|].
    simpl. apply Subseq_keep, IH.
  - intros item Hin. unfold clean_and_filter_text in Hin.
    apply in_flat_map in Hin. destruct Hin as [item0 [_ Hin]].
    destruct (String.length (strip (text item0)) <? 2)%nat; [destruct Hin|].
    destruct (is_header_footer (strip (text item0)) item0); [destruct Hin|].
    destruct (match_end re_digits_blanks_dashes (strip (text item0))
              && (String.length (strip (text item0)) <? 10)%nat);
      [destruct Hin|].
    destruct Hin as [<- | []]. simpl. split.
    + apply StringFacts.strip_collapse_strip.
    + unfold collapse_ws. apply StringFacts.collapse_idem.
Qed.

End StatisticalFacts.

(* ================================================================== *)
(** ** Confidence, uniform documents and first occurrences *)
(* ================================================================== *)

Module ScoringFacts.
Import PyStr Re PFinal Assembler.

(** X10: the confidence of an item lies between -1.5 and 9.5, whatever
    the thresholds. *)
Theorem confidence_bounds (item : Item) (th : Thresholds) (st : SizeStats) :
  - (15 # 10) <= calculate_confidence_advanced item th st
  /\ calculate_confidence_advanced item th st <= 95 # 10.
Proof.
  unfold calculate_confidence_advanced.
  destruct (Qgeb (size item) (h1 th)); destruct (Qgeb (size item) (h2 th));
  destruct (Qgeb (size item) (h3 th)); destruct (Qltb (mean st) (size item));
  destruct (is_bold item); destruct (matches_heading_pattern (text item));
  destruct (endswith (text item) ":");
  destruct (isupper (text item) && (5 <? String.length (text item))%nat
            && (String.length (text item) <? 50)%nat);
  destruct (Qltb (y item) 100);
  destruct ((5 <=? String.length (text item))%nat
            && (String.length (text item) <=? 80)%nat);
  destruct (150 <? String.length (text item))%nat; split; lra.
Qed.

(** X11: an item that is not bold, matches no heading pattern, does not
    end with a colon, is not in capitals and is smaller than the three
    heading thresholds is never admitted: its confidence is at most 2 and
    it contributes no candidate, wherever it stands on the page. *)
Theorem plain_item_not_admitted (item : Item) (th : Thresholds) (st : SizeStats) :
  is_bold item = false ->
  matches_heading_pattern (text item) = false ->
  endswith (text item) ":" = false ->
  isupper (text item) = false ->
  size item < h1 th -> size item < h2 th -> size item < h3 th ->
  calculate_confidence_advanced item th st <= 2
  /\ candidate_of th st item = [].
Proof.
  intros Hb Hp Hc Hu H1 H2 H3.
  assert (E1 : Qgeb (size item) (h1 th) = false).
  { destruct (Qgeb (size item) (h1 th)) eqn:E; [|reflexivity].
    apply Qgeb_true in E. lra. }
  assert (E2 : Qgeb (size item) (h2 th) = false).
  { destruct (Qgeb (size item) (h2 th)) eqn:E; [|reflexivity].
    apply Qgeb_true in E. lra. }
  assert (E3 : Qgeb (size item) (h3 th) = false).
  { destruct (Qgeb (size item) (h3 th)) eqn:E; [|reflexivity].
    apply Qgeb_true in E. lra. }
  assert (Hconf : calculate_confidence_advanced item th st <= 2).
  { unfold calculate_confidence_advanced.
    rewrite E1, E2, E3, Hb, Hp, Hc, Hu. cbn [andb]. cbv beta iota zeta.
    destruct (Qltb (mean st) (size item)); destruct (Qltb (y item) 100);
    destruct ((5 <=? String.length (text item))%nat
              && (String.length (text item) <=? 80)%nat);
    destruct (150 <? String.length (text item))%nat; lra. }
  split; [exact Hconf|].
  unfold candidate_of.
  destruct (could_be_heading _ _ _); [|reflexivity]. simpl.
  destruct (Qltb 2 (calculate_confidence_advanced item th st)) eqn:E;
    [|reflexivity].
  apply Qltb_true in E. lra.
Qed.

Lemma plain_item_not_admitted_witness :
  candidate_of (mkThresholds 16 14 13 12) (mkStats 12 12 [12])
               MoreSamples.plain_item = [].
Proof.
  apply (plain_item_not_admitted MoreSamples.plain_item
           (mkThresholds 16 14 13 12) (mkStats 12 12 [12]));
    vm_compute; reflexivity.
Defined.

(** *** Documents of one font size *)

Lemma Qnat_S (n : nat) : Qnat (S n) == Qnat n + 1.
Proof.
  unfold Qnat. rewrite Nat2Z.inj_succ, <- Z.add_1_r, inject_Z_plus.
  reflexivity.
Qed.

Lemma Qnat_pos (n : nat) : (0 < n)%nat -> 0 < Qnat n.
Proof.
  intros H. unfold Qnat. change 0 with (inject_Z 0).
  rewrite <- Zlt_Qlt. lia.
Qed.

Lemma uniform_sum (s : Q) (l : list Q) :
  (forall q, In q l -> q == s) ->
  fold_right Qplus 0 l == Qnat (List.length l) * s.
Proof.
  induction l as [|a l IH]; intros H.
  - simpl. unfold Qnat. simpl. ring.
  - change (fold_right Qplus 0 (a :: l)) with (a + fold_right Qplus 0 l).
    change (List.length (a :: l)) with (S (List.length l)).
    assert (Ha : a == s) by (apply H; left; reflexivity).
    assert (Hl : fold_right Qplus 0 l == Qnat (List.length l) * s).
    { apply IH. intros q Hq. apply H. right. exact Hq. }
    rewrite Qnat_S, Ha, Hl. ring.
Qed.

Lemma uniform_average (s : Q) (l : list Q) :
  l <> [] -> (forall q, In q l -> q == s) ->
  fold_right Qplus 0 l / Qnat (List.length l) == s.
Proof.
  intros Hne H. rewrite (uniform_sum s l H).
  assert (Hn : 0 < Qnat (List.length l)).
  { apply Qnat_pos. destruct l; [congruence | simpl; lia]. }
  field. intros E. rewrite E in Hn. apply (Qlt_irrefl 0 Hn).
Qed.






(** *** First occurrences in the statistical outline *)

Lemma is_dropped_same_text (seen : list string) (a b : Heading) :
  normalize (h_text a) = normalize (h_text b) ->
  is_dropped seen a = is_dropped seen b.
Proof.
  intros E. unfold is_dropped. rewrite E. reflexivity.
Qed.

Lemma is_dropped_more_seen (seen : list string) (t : string) (h : Heading) :
  is_dropped seen h = true -> is_dropped (seen ++ [t]) h = true.
Proof.
  rewrite !AssemblerFacts.is_dropped_iff. unfold drop_condition.
  intros [Hin | [Hlen [s [Hs Hc]]]].
  - left. apply in_app_iff. left. exact Hin.
  - right. split; [exact Hlen|]. exists s. split; [|exact Hc].
    apply in_app_iff. left. exact Hs.
Qed.

Lemma is_dropped_once_seen (seen : list string) (h : Heading) :
  is_dropped (seen ++ [normalize (h_text h)]) h = true.
Proof.
  apply AssemblerFacts.is_dropped_iff. left.
  apply in_app_iff. right. left. reflexivity.
Qed.

(** A kept entry is the projection of the first heading of its
    normalized text. *)
Lemma filter_loop_first (hs : list Heading) :
  forall seen acc e,
    In e (snd (filter_loop seen acc hs)) ->
    In e acc
    \/ exists pre h post,
         hs = pre ++ h :: post /\ e = project h
         /\ is_dropped seen h = false
         /\ forall x, In x pre ->
                      normalize (h_text x) <> normalize (h_text h).
Proof.
  induction hs as [|a hs IH]; intros seen acc e He; simpl in He.
  - left. exact He.
  - destruct (is_dropped seen a) eqn:Ea.
    + apply IH in He.
      destruct He as [He | (pre & h & post & -> & -> & Hd & Hpre)];
        [left; exact He | right].
      exists (a :: pre), h, post. repeat split; try assumption.
      intros x [<- | Hx]; [|apply Hpre, Hx].
      intros E. rewrite (is_dropped_same_text seen a h E) in Ea. congruence.
    + apply IH in He.
      destruct He as [He | (pre & h & post & -> & -> & Hd & Hpre)].
      * apply in_app_iff in He. destruct He as [He | [<- | []]];
          [left; exact He | right].
        exists [], a, hs. repeat split; try assumption. intros x [].
      * right. exists (a :: pre), h, post.
        split; [reflexivity|]. split; [reflexivity|]. split.
        -- destruct (is_dropped seen h) eqn:E; [|reflexivity].
           apply (is_dropped_more_seen seen (normalize (h_text a))) in E.
           congruence.
        -- intros x [<- | Hx]; [|apply Hpre, Hx].
           intros E.
           rewrite <- (is_dropped_same_text _ a h E) in Hd.
           rewrite is_dropped_once_seen in Hd. discriminate.
Qed.

(** X13: of the candidates that share a normalized text, the statistical
    outline keeps an earliest one: no candidate whose normalized text is
    that of an entry is on a page before the page of the entry. *)
Theorem first_occurrence_kept_statistical
    (text_items : list Item) (e : Entry) (c : Heading) :
  In e (classify_headings_advanced text_items) ->
  In c (potential_headings text_items) ->
  normalize (h_text c) = normalize (e_text e) ->
  (e_page e <= h_page c)%Z.
Proof.
  intros He Hc Et. unfold classify_headings_advanced in He.
  destruct text_items as [|i0 items]; [destruct He|].
  destruct (positive_sizes (i0 :: items)); [destruct He|].
  rewrite AssemblerFacts.post_process_unfold in He.
  apply AssemblerFacts.firstn_In in He.
  apply filter_loop_first in He.
  destruct He as [[] | (pre & h & post & Es & -> & _ & Hpre)].
  pose proof (sort_sorted key_lt statistical_key_lt_asym
                statistical_key_le_trans (potential_headings (i0 :: items)))
    as Hs.
  apply (proj2 (sort_In key_lt _ _)) in Hc. rewrite Es in Hc, Hs.
  simpl in *.
  apply in_app_iff in Hc. destruct Hc as [Hc | [<- | Hc]].
  - exfalso. apply (Hpre c Hc). exact Et.
  - lia.
  - pose proof (EnhancedFacts.sorted_after _ _ _ _ Hs c Hc) as Hle.
    unfold not_after in Hle. apply statistical_key_lt_false in Hle.
    destruct Hle as [Hle | [Hle _]]; lia.
Qed.

Lemma first_occurrence_kept_statistical_witness :
  classify_headings_advanced MoreSamples.twice_doc
  = [mkEntry H1 "Appendix  Notes" 2]
  /\ (e_page (mkEntry H1 "Appendix  Notes" 2)
      <= h_page (mkHeading H1 "APPENDIX NOTES" 4 16 (8500 # 1000) 60))%Z.
Proof.
  split; [vm_compute; reflexivity|].
  apply (first_occurrence_kept_statistical MoreSamples.twice_doc).
  - vm_compute. left. reflexivity.
  - vm_compute. left. reflexivity.
  - vm_compute. reflexivity.
Defined.

End ScoringFacts.

(* ================================================================== *)
(** ** Bounding boxes and the blocks read from the pages *)
(* ================================================================== *)

Module LayoutFacts.
Import PyStr Layout.

Lemma bboxes_overlap_iff (a b : BBox) :
  bboxes_overlap a b = true
  <-> bx0 b <= bx1 a /\ bx0 a <= bx1 b /\ by0 b <= by1 a /\ by0 a <= by1 b.
Proof.
  unfold bboxes_overlap. rewrite negb_true_iff, !orb_false_iff, !Qltb_false.
  tauto.
Qed.

(** X14: [bboxes_overlap] does not depend on the order of its arguments;
    a box overlaps itself exactly when it is not inverted; boxes that
    only share an edge overlap; and a box that overlaps [b] overlaps
    every box that contains [b]. *)
Theorem bboxes_overlap_properties :
  (forall a b, bboxes_overlap a b = bboxes_overlap b a)
  /\ (forall a, bboxes_overlap a a = true
                <-> bx0 a <= bx1 a /\ by0 a <= by1 a)
  /\ (forall a b, bx0 a <= bx1 a -> by0 a <= by1 a ->
                  by0 b <= by1 a -> by0 a <= by1 b ->
                  bx0 b == bx1 a -> bx0 b <= bx1 b ->
                  bboxes_overlap a b = true)
  /\ (forall a b c, bboxes_overlap a b = true ->
                    bx0 c <= bx0 b -> bx1 b <= bx1 c ->
                    by0 c <= by0 b -> by1 b <= by1 c ->
                    bboxes_overlap a c = true).
Proof.
  split; [|split; [|split]].
  - intros a b.
    destruct (bboxes_overlap a b) eqn:E1; destruct (bboxes_overlap b a) eqn:E2;
      try reflexivity.
    + apply bboxes_overlap_iff in E1.
      assert (E : bboxes_overlap b a = true) by (apply bboxes_overlap_iff; tauto).
      congruence.
    + apply bboxes_overlap_iff in E2.
      assert (E : bboxes_overlap a b = true) by (apply bboxes_overlap_iff; tauto).
      congruence.
  - intros a. rewrite bboxes_overlap_iff. tauto.
  - intros a b Hax Hay H1 H2 Hedge Hbx. apply bboxes_overlap_iff.
    repeat split; try assumption; lra.
  - intros a b c H Hx0 Hx1 Hy0 Hy1. apply bboxes_overlap_iff in H.
    apply bboxes_overlap_iff. repeat split; lra.
Qed.

(** *** The blocks of a line *)

Lemma bold_bit (f : Z) : negb (Z.land f 16 =? 0)%Z = Z.testbit f 4.
Proof.
  assert (E : Z.land f 16 = if Z.testbit f 4 then 16%Z else 0%Z).
  { apply Z.bits_inj'. intros n Hn. rewrite Z.land_spec.
    change 16%Z with (2 ^ 4)%Z. rewrite Z.pow2_bits_eqb by lia.
    destruct (Z.eqb_spec 4 n) as [<-|Hne].
    - rewrite andb_true_r.
      destruct (Z.testbit f 4) eqn:E; [|rewrite Z.bits_0; reflexivity].
      rewrite Z.pow2_bits_true by lia. reflexivity.
    - rewrite andb_false_r.
      destruct (Z.testbit f 4); [|rewrite Z.bits_0; reflexivity].
      rewrite Z.pow2_bits_false by lia. reflexivity. }
  rewrite E. destruct (Z.testbit f 4); reflexivity.
Qed.

Lemma existsb_pointwise {A : Type} (f g : A -> bool) (l : list A) :
  (forall a, f a = g a) -> existsb f l = existsb g l.
Proof.
  intros H. induction l as [|a l IH]; simpl; [reflexivity|].
  rewrite H, IH. reflexivity.
Qed.

Lemma line_block_origin (page_num : nat) (line : Line) (b : Enhanced.Block) :
  In b (line_block page_num line) ->
  Enhanced.text b = strip (String.concat "" (map span_text (spans line)))
  /\ Enhanced.text b <> EmptyString
  /\ Enhanced.page b = (Z.of_nat page_num + 1)%Z
  /\ Enhanced.is_bold b
     = existsb (fun s => Z.testbit (flags_of s) 4) (spans line)
  /\ Enhanced.pos_y b = by0 (line_bbox line)
  /\ Enhanced.size b
     = match map size_of (spans line) with
       | [] => 12
       | szs => fold_right Qplus 0 szs / Qnat (List.length szs)
       end.
Proof.
  unfold line_block.
  destruct (strip (String.concat "" (map span_text (spans line))))
    as [|c0 r0] eqn:Et; [intros []|].
  intros [<- | []]. cbn [Enhanced.text Enhanced.page Enhanced.is_bold
                         Enhanced.pos_y Enhanced.size].
  split; [reflexivity|]. split; [discriminate|]. split; [reflexivity|].
  split; [apply existsb_pointwise; intros s; apply bold_bit|].
  split; [reflexivity|].
  destruct (map size_of (spans line)); reflexivity.
Qed.

Lemma default_sizes_mean (l : list Span) :
  l <> [] -> (forall s, In s l -> span_size s = None) ->
  fold_right Qplus 0 (map size_of l) / Qnat (List.length (map size_of l)) == 12.
Proof.
  intros Hne Hall.
  apply (ScoringFacts.uniform_average 12 (map size_of l)).
  - destruct l; [congruence | discriminate].
  - intros q Hq. apply in_map_iff in Hq. destruct Hq as [s [<- Hs]].
    unfold size_of. rewrite (Hall s Hs). reflexivity.
Qed.

(** X15: the block a line gives.  Its text is the stripped concatenation
    of the span texts and is not empty; it is bold exactly when bit 4 of
    the flags of some span is set, a span without flags counting as not
    bold; and when no span of the line carries a size, its size is 12. *)
Theorem line_block_metadata (page_num : nat) (line : Line) (b : Enhanced.Block) :
  In b (line_block page_num line) ->
  Enhanced.text b = strip (String.concat "" (map span_text (spans line)))
  /\ (1 <= String.length (Enhanced.text b))%nat
  /\ (Enhanced.is_bold b = true
      <-> exists s f, In s (spans line) /\ span_flags s = Some f
                      /\ Z.testbit f 4 = true)
  /\ ((forall s, In s (spans line) -> span_size s = None) ->
      Enhanced.size b == 12).
Proof.
  intros Hb. apply line_block_origin in Hb.
  destruct Hb as (Et & Hne & _ & Hbold & _ & Hsize).
  split; [exact Et|]. split; [apply StringFacts.length_pos, Hne|]. split.
  - rewrite Hbold, existsb_exists. split.
    + intros [s [Hs Hbit]]. unfold flags_of in Hbit.
      destruct (span_flags s) as [f|] eqn:Ef; [|discriminate].
      exists s, f. repeat split; assumption.
    + intros (s & f & Hs & Ef & Hbit). exists s. split; [exact Hs|].
      unfold flags_of. rewrite Ef. exact Hbit.
  - intros Hall. rewrite Hsize.
    destruct (spans line) as [|s0 ss] eqn:Es; [reflexivity|].
    change (map size_of (s0 :: ss)) with (size_of s0 :: map size_of ss).
    cbv iota.
    change (size_of s0 :: map size_of ss) with (map size_of (s0 :: ss)).
    apply default_sizes_mean; [discriminate | exact Hall].
Qed.

Lemma line_block_metadata_witness :
  Enhanced.size (Enhanced.mkBlock "Second page" 2 (12 / Qnat 1) false 80) == 12.
Proof.
  destruct (line_block_metadata 1
              (mkLine [mkSpan "Second page" None None] (mkBBox 72 80 300 95))
              (Enhanced.mkBlock "Second page" 2 (12 / Qnat 1) false 80))
    as (_ & _ & _ & Hsize).
  - vm_compute. left. reflexivity.
  - apply Hsize. intros s [<- | []]. reflexivity.
Defined.

(** *** The blocks of a document *)

Lemma page_blocks_page (page_num : nat) (page : Page) (b : Enhanced.Block) :
  In b (page_blocks page_num page) ->
  Enhanced.page b = (Z.of_nat page_num + 1)%Z
  /\ strip (Enhanced.text b) = Enhanced.text b
  /\ (1 <= String.length (Enhanced.text b))%nat.
Proof.
  unfold page_blocks. intros H. apply in_flat_map in H.
  destruct H as [block [_ H]].
  destruct (lines block) as [ls|]; [|destruct H].
  apply in_flat_map in H. destruct H as [line [_ H]].
  apply line_block_origin in H. destruct H as (Et & Hne & Ep & _).
  split; [exact Ep|]. split.
  - rewrite Et. apply StringFacts.strip_idem.
  - apply StringFacts.length_pos, Hne.
Qed.

Lemma blocks_from_page (doc : list Page) :
  forall page_num b,
    In b (blocks_from page_num doc) ->
    (Z.of_nat page_num + 1 <= Enhanced.page b
     <= Z.of_nat page_num + Z.of_nat (List.length doc))%Z
    /\ strip (Enhanced.text b) = Enhanced.text b
    /\ (1 <= String.length (Enhanced.text b))%nat.
Proof.
  induction doc as [|page doc IH]; intros page_num b H; simpl in H;
    [destruct H|].
  apply in_app_iff in H. destruct H as [H | H].
  - apply page_blocks_page in H. destruct H as (Ep & Hs & Hl).
    split; [|split; assumption]. simpl List.length. lia.
  - apply IH in H. destruct H as (Ep & Hs & Hl).
    split; [|split; assumption]. simpl List.length. lia.
Qed.

Lemma StronglySorted_app {A : Type} (R : A -> A -> Prop) (l1 l2 : list A) :
  StronglySorted R l1 -> StronglySorted R l2 ->
  (forall a b, In a l1 -> In b l2 -> R a b) ->
  StronglySorted R (l1 ++ l2).
Proof.
  induction 1 as [|x l1 Hs IH Hall]; simpl; intros H2 Hcross; [exact H2|].
  constructor.
  - apply IH; [exact H2|]. intros a b Ha Hb. apply Hcross; [right|]; assumption.
  - rewrite Forall_forall in *. intros b Hb.
    apply in_app_iff in Hb. destruct Hb as [Hb | Hb];
      [apply Hall, Hb | apply Hcross; [left; reflexivity | exact Hb]].
Qed.

Lemma same_page_sorted (l : list Enhanced.Block) (p : Z) :
  (forall b, In b l -> Enhanced.page b = p) ->
  StronglySorted (fun a b => (Enhanced.page a <= Enhanced.page b)%Z) l.
Proof.
  induction l as [|x l IH]; intros H; constructor.
  - apply IH. intros b Hb. apply H. right. exact Hb.
  - rewrite Forall_forall. intros b Hb.
    rewrite (H x), (H b) by (simpl; auto). lia.
Qed.

(** X16: the blocks read from the pages.  Every block has a text that is
    not empty and is already stripped, and a page number between 1 and
    the number of pages; the blocks are listed by ascending page. *)
Theorem extracted_blocks_invariants (doc : list Page) :
  (forall b, In b (extract_text_blocks doc) ->
             strip (Enhanced.text b) = Enhanced.text b
             /\ (1 <= String.length (Enhanced.text b))%nat
             /\ (1 <= Enhanced.page b <= Z.of_nat (List.length doc))%Z)
  /\ StronglySorted (fun a b => (Enhanced.page a <= Enhanced.page b)%Z)
                    (extract_text_blocks doc).
Proof.
  split.
  - intros b Hb. apply blocks_from_page in Hb.
    destruct Hb as (Hp & Hs & Hl). repeat split; try assumption; lia.
  - unfold extract_text_blocks. generalize 0%nat.
    induction doc as [|page doc IH]; intros n; simpl; [constructor|].
    apply StronglySorted_app.
    + apply (same_page_sorted _ (Z.of_nat n + 1)%Z).
      intros b Hb. apply page_blocks_page in Hb. tauto.
    + apply IH.
    + intros a b Ha Hb. apply page_blocks_page in Ha.
      apply blocks_from_page in Hb. destruct Ha as [-> _].
      destruct Hb as [Hb _]. lia.
Qed.

End LayoutFacts.

(* ================================================================== *)
(** ** What the results depend on *)
(* ================================================================== *)

Module DependencyFacts.
Import PyStr Re Typography.

Lemma existsb_map {A B : Type} (f : A -> B) (p : B -> bool) (l : list A) :
  existsb p (map f l) = existsb (fun a => p (f a)) l.
Proof.
  induction l as [|a l IH]; simpl; [reflexivity | rewrite IH; reflexivity].
Qed.

Lemma flat_map_map {A B C : Type} (f : A -> B) (g : B -> list C) (l : list A) :
  flat_map g (map f l) = flat_map (fun a => g (f a)) l.
Proof.
  induction l as [|a l IH]; simpl; [reflexivity | rewrite IH; reflexivity].
Qed.

Lemma same_texts (bs bs' : list Enhanced.Block) :
  map text_and_page bs = map text_and_page bs' ->
  map Enhanced.text bs = map Enhanced.text bs'.
Proof.
  intros H. apply (f_equal (map fst)) in H. rewrite !map_map in H. exact H.
Qed.

Lemma detect_document_type_texts (bs bs' : list Enhanced.Block) :
  map Enhanced.text bs = map Enhanced.text bs' ->
  Enhanced.detect_document_type bs = Enhanced.detect_document_type bs'.
Proof.
  intros H.
  assert (Hall : Enhanced.all_text bs = Enhanced.all_text bs').
  { unfold Enhanced.all_text.
    rewrite <- (map_map Enhanced.text lower bs),
            <- (map_map Enhanced.text lower bs'), H. reflexivity. }
  assert (Hscores : Enhanced.type_scores bs = Enhanced.type_scores bs').
  { unfold Enhanced.type_scores. rewrite Hall. reflexivity. }
  assert (Htotal : Enhanced.total_blocks bs = Enhanced.total_blocks bs').
  { unfold Enhanced.total_blocks.
    rewrite <- (length_map Enhanced.text bs), <- (length_map Enhanced.text bs'), H.
    reflexivity. }
  assert (Havg : Enhanced.avg_text_length bs = Enhanced.avg_text_length bs').
  { unfold Enhanced.avg_text_length. rewrite Htotal.
    rewrite <- (map_map Enhanced.text String.length bs),
            <- (map_map Enhanced.text String.length bs'), H. reflexivity. }
  unfold Enhanced.detect_document_type. rewrite Hscores, Htotal, Havg.
  reflexivity.
Qed.

Lemma should_extract_headings_texts (dt : DocType) (bs bs' : list Enhanced.Block) :
  map Enhanced.text bs = map Enhanced.text bs' ->
  Enhanced.should_extract_headings dt bs = Enhanced.should_extract_headings dt bs'.
Proof.
  intros H. unfold Enhanced.should_extract_headings.
  assert (Hlen : List.length bs = List.length bs').
  { rewrite <- (length_map Enhanced.text bs), <- (length_map Enhanced.text bs'), H.
    reflexivity. }
  rewrite Hlen.
  rewrite <- (existsb_map Enhanced.text
                (fun t => match_end Enhanced.h1_definite t
                          || match_end Enhanced.h2_definite t) bs),
          <- (existsb_map Enhanced.text
                (fun t => match_end Enhanced.h1_definite t
                          || match_end Enhanced.h2_definite t) bs'),
          <- (existsb_map Enhanced.text
                (fun t => match_end Enhanced.h1_special t) bs),
          <- (existsb_map Enhanced.text
                (fun t => match_end Enhanced.h1_special t) bs'), H.
  reflexivity.
Qed.

Lemma candidate_of_bare (dt : DocType) (b : Enhanced.Block) :
  Enhanced.candidate_of dt b = Enhanced.candidate_of dt (bare (text_and_page b)).
Proof. destruct b. reflexivity. Qed.

(** X17: the outline of the conservative extractor depends on the texts
    and pages of the blocks only: two block lists that agree on them, and
    differ in font size, boldness or position, have the same document
    type, the same gate decision and the same outline. *)
Theorem conservative_outline_ignores_typography (bs bs' : list Enhanced.Block) :
  map text_and_page bs = map text_and_page bs' ->
  Enhanced.detect_document_type bs = Enhanced.detect_document_type bs'
  /\ Enhanced.should_extract_headings (Enhanced.detect_document_type bs) bs
     = Enhanced.should_extract_headings (Enhanced.detect_document_type bs') bs'
  /\ outline (Enhanced.extract_outline bs) = outline (Enhanced.extract_outline bs').
Proof.
  intros H. pose proof (same_texts bs bs' H) as Ht.
  pose proof (detect_document_type_texts bs bs' Ht) as Hdt.
  assert (Hgate : Enhanced.should_extract_headings
                    (Enhanced.detect_document_type bs) bs
                  = Enhanced.should_extract_headings
                      (Enhanced.detect_document_type bs') bs').
  { rewrite Hdt. apply should_extract_headings_texts, Ht. }
  split; [exact Hdt|]. split; [exact Hgate|].
  assert (Hcands : Enhanced.potential_headings bs
                     (Enhanced.detect_document_type bs)
                   = Enhanced.potential_headings bs'
                       (Enhanced.detect_document_type bs')).
  { unfold Enhanced.potential_headings. rewrite Hdt.
    rewrite (flat_map_ext _ _ (candidate_of_bare _) bs).
    rewrite (flat_map_ext _ _ (candidate_of_bare _) bs').
    rewrite <- (flat_map_map text_and_page
                  (fun k => Enhanced.candidate_of
                              (Enhanced.detect_document_type bs') (bare k)) bs),
            <- (flat_map_map text_and_page
                  (fun k => Enhanced.candidate_of
                              (Enhanced.detect_document_type bs') (bare k)) bs'),
            H.
    reflexivity. }
  unfold Enhanced.extract_outline.
  destruct bs as [|b bs]; destruct bs' as [|b' bs']; try discriminate;
    [reflexivity|].
  cbv zeta. rewrite Hgate.
  destruct (negb (Enhanced.should_extract_headings _ _)); [reflexivity|].
  cbn [outline]. rewrite Hcands. reflexivity.
Qed.

Lemma conservative_outline_ignores_typography_witness :
  outline (Enhanced.extract_outline Samples.numbered_report)
  = outline (Enhanced.extract_outline
               (map (fun b => bare (text_and_page b)) Samples.numbered_report)).
Proof.
  apply (conservative_outline_ignores_typography Samples.numbered_report).
  rewrite map_map. apply map_ext. intros b. reflexivity.
Defined.

(** X18: [clean_and_filter_text] drops an item whose stripped text has
    fewer than 2 characters or is a bare page number (digits, then
    blanks): the result is the same without the item, wherever it stands
    in the input and on the page. *)
Theorem cleaning_drops_page_numbers
    (before after : list PFinal.Item) (item : PFinal.Item) :
  (String.length (strip (PFinal.text item)) < 2)%nat
  \/ match_end PFinal.re_page_number (strip (PFinal.text item)) = true ->
  PFinal.clean_and_filter_text (before ++ item :: after)
  = PFinal.clean_and_filter_text (before ++ after).
Proof.
  intros H. unfold PFinal.clean_and_filter_text.
  rewrite !flat_map_app. f_equal. simpl.
  destruct H as [H | H].
  - apply Nat.ltb_lt in H. rewrite H. reflexivity.
  - destruct (String.length (strip (PFinal.text item)) <? 2)%nat;
      [reflexivity|].
    assert (E : PFinal.is_header_footer (strip (PFinal.text item)) item = true).
    { unfold PFinal.is_header_footer.
      destruct (_ && _); [reflexivity|].
      unfold PFinal.header_footer_patterns. simpl. rewrite H.
      apply orb_true_r. }
    rewrite E. reflexivity.
Qed.

Lemma cleaning_drops_page_numbers_witness :
  PFinal.clean_and_filter_text
    ([PFinal.mkItem "Overview" 1 0 160 20 false]
     ++ PFinal.mkItem " 12 " 1 0 400 10 false :: [])
  = PFinal.clean_and_filter_text
      ([PFinal.mkItem "Overview" 1 0 160 20 false] ++ []).
Proof.
  apply (cleaning_drops_page_numbers
           [PFinal.mkItem "Overview" 1 0 160 20 false] []
           (PFinal.mkItem " 12 " 1 0 400 10 false)).
  right. vm_compute. reflexivity.
Defined.

End DependencyFacts.

(* ================================================================== *)
(** ** The rounded arithmetic on sample values *)
(* ================================================================== *)

Module Binary64Scenarios.
Import Binary64 Machine.

(** Rounding a quotient of integers is the division of the machine. *)
Example fl_is_machine_division :
  rational (41 / 3) = fl (41 # 3)
  /\ rational (32 / 3) = fl (32 # 3)
  /\ rational (1 / 10) = fl (1 # 10)
  /\ rational (44 / 3) = fl (44 # 3).
Proof. repeat split; vm_compute; reflexivity. Qed.

(** [fadd] and [fsub] are the addition and subtraction of the machine. *)
Example fadd_is_machine_addition :
  rational (41 / 3 + 4) = fadd (rational (41 / 3)) 4
  /\ rational (9007199254740992 + 1) = fadd 9007199254740992 1
  /\ rational (9007199254740994 - 1) = fsub 9007199254740994 1
  /\ rational (44 / 3 - 1) = fsub (rational (44 / 3)) 1.
Proof. repeat split; vm_compute; reflexivity. Qed.

(** The mean of 10, 10 and 12 is the float nearest to 32/3, not 32/3. *)
Example mean_is_rounded :
  PFinal.statistics_mean [10; 10; 12] = rational (32 / 3)
  /\ Qeq_bool (PFinal.statistics_mean [10; 10; 12]) (32 # 3) = false.
Proof. split; vm_compute; reflexivity. Qed.

(** With sizes nearest to 41/3, 41/3 and 50/3 the mean minus 1 is the
    smaller size, and the three headings are in the outline. *)
Example rounded_mean_keeps_items :
  fsub (PFinal.statistics_mean (PFinal.positive_sizes thirds_doc)) 1
  = fl (41 # 3)
  /\ PFinal.classify_headings_advanced thirds_doc
     = [mkEntry H2 "SUMMARY OF RESULTS" 1; mkEntry H2 "SCOPE OF THE WORK" 1;
        mkEntry H1 "PLAN FOR THE YEAR" 1].
Proof. split; vm_compute; reflexivity. Qed.

(** At size 2^53 the float sum of the mean and 1 is the mean. *)
Example sum_absorbed_at_two_to_53 :
  let stats := PFinal.size_stats_of (PFinal.positive_sizes huge_doc) in
  PFinal.h3 (PFinal.calculate_heading_thresholds stats) = PFinal.mean stats
  /\ PFinal.classify_headings_advanced huge_doc
     = [mkEntry H3 "SUMMARY OF RESULTS" 1].
Proof. split; vm_compute; reflexivity. Qed.

End Binary64Scenarios.
